(** * json-api: request pipeline and Mongoose criteria translation

    A shallow embedding of
    - [src/db-adapters/Mongoose/lib.ts] ([errorHandler], [toMongoCriteria]),
    - the HTTP base strategy ([buildRequestObject]), and
    - the API controller ([handle], [makeResultFromErrors],
      [resultToHTTPResponse], [pickStatus]),
    followed by the properties of the specification that concern them.

    JavaScript objects used as dictionaries (header maps, the type registry)
    are finite maps; thrown values are an explicit inductive type; promises
    and [async] functions are computations in a small state-and-exception
    monad whose state carries what the source mutates. *)

From Stdlib Require Import ZArith List String Ascii Bool Lia.
From stdpp Require Import base option list strings gmap.

Set Warnings "-register-all".

Local Open Scope string_scope.
Local Open Scope Z_scope.

(** ** JavaScript values *)

Module JS.

(** The double quote character, which the template literals of the source
    place around interpolated names. *)
Definition dquote : string := String "034"%char EmptyString.

(** [String.prototype.toLowerCase] and [toUpperCase] on the ASCII range:
    the letters [A] to [Z] and [a] to [z] are mapped, every other
    character is kept (method names and the values compared with them are
    ASCII; JavaScript maps the letters beyond ASCII too). *)
Definition lowerChar (c : ascii) : ascii :=
  let n := N_of_ascii c in
  if ((65 <=? n) && (n <=? 90))%N then ascii_of_N (n + 32) else c.

Definition upperChar (c : ascii) : ascii :=
  let n := N_of_ascii c in
  if ((97 <=? n) && (n <=? 122))%N then ascii_of_N (n - 32) else c.

Fixpoint toLowerCase (s : string) : string :=
  match s with
  | EmptyString => EmptyString
  | String c r => String (lowerChar c) (toLowerCase r)
  end.

Fixpoint toUpperCase (s : string) : string :=
  match s with
  | EmptyString => EmptyString
  | String c r => String (upperChar c) (toUpperCase r)
  end.

(** Truthiness of a string: every string but the empty one. *)
Definition truthyString (s : string) : bool :=
  match s with EmptyString => false | _ => true end.

(** Truthiness of an optional string ([undefined] is falsy). *)
Definition truthyOptString (o : option string) : bool :=
  match o with Some s => truthyString s | None => false end.

(** Truthiness of an optional number: [undefined] and [0] are falsy. *)
Definition truthyOptNumber (o : option Z) : bool :=
  match o with Some n => negb (n =? 0) | None => false end.

(** JSON data: filter values on the way in, Mongo criteria on the way
    out.  An object is the list of its members in insertion order. *)
Inductive JSON : Type :=
| JNull
| JBool (b : bool)
| JNum (n : Z)
| JStr (s : string)
| JArr (items : list JSON)
| JObj (members : list (string * JSON)).

(** [a || b] on optional strings. *)
Definition orElse (a b : option string) : option string :=
  if truthyOptString a then a else b.

(** A possibly undefined string inside a concatenation. *)
Definition display (o : option string) : string :=
  match o with Some s => s | None => "undefined" end.

End JS.
Import JS.

(** A native [Error] object as the adapters see it: [name], [message], the
    optional numeric [code] of driver errors, and the optional [errors]
    collection of validation errors, keyed by field path (an object, so
    truthy even when it has no keys). *)
Module ErrorObject.

Inductive t : Type :=
| mk (name message : string) (code : option Z)
     (errors : option (list (string * t))).

Definition name (e : t) : string :=
  match e with mk n _ _ _ => n end.
Definition message (e : t) : string :=
  match e with mk _ m _ _ => m end.
Definition code (e : t) : option Z :=
  match e with mk _ _ c _ => c end.
Definition errors (e : t) : option (list (string * t)) :=
  match e with mk _ _ _ es => es end.

End ErrorObject.
Abbreviation ErrorObject := ErrorObject.t.

(** [TypeError] raised by a property read on [null] or [undefined]; the
    message is engine specific and left empty. *)
Definition TypeError : ErrorObject :=
  ErrorObject.mk "TypeError" "" None None.

(** ** APIError *)

(** The class [APIError] is declared outside the sources at hand.  Per the
    data model it carries an integer status, a title, a detail, an optional
    code and an optional raw source error. *)
Module APIError.

Record t : Type := mk {
  status : Z;
  code : option Z;
  title : option string;
  detail : option string;
  rawError : option ErrorObject
}.

End APIError.
Abbreviation APIError := APIError.t.

(** Modelled from the spec: the constructor of the class [APIError], which
    is not among the sources.  The specification gives an APIError a
    status, a title, a detail, an optional code and an optional raw error;
    the sources call the constructor with a status, a code and one text,
    [new APIError(status, code, title)]: the text is the title of the
    error, and its detail and raw error are left unset. *)
Definition newAPIError (status : Z) (code : option Z) (title : string)
    : APIError :=
  {| APIError.status := status; APIError.code := code;
     APIError.title := Some title; APIError.detail := None;
     APIError.rawError := None |}.

(** The options object taken by the error factories of [util/errors]. *)
Module ErrorOpts.

Record t : Type := mk {
  detail : option string;
  rawError : option ErrorObject;
  code : option Z
}.

End ErrorOpts.
Abbreviation ErrorOpts := ErrorOpts.t.

(** Values that can be thrown, or used to reject a promise. *)
Inductive JSValue : Type :=
| JSUndefined
| JSNull
| JSBoolean (b : bool)
| JSNumber (n : Z)
| JSString (s : string)
| JSErrorObj (e : ErrorObject)
| JSAPIError (e : APIError)
| JSArray (items : list JSValue).

(** [Array.isArray]. *)
Definition isArray (v : JSValue) : bool :=
  match v with JSArray _ => true | _ => false end.

(** [v == null]. *)
Definition isNullish (v : JSValue) : bool :=
  match v with JSUndefined | JSNull => true | _ => false end.

(** The outcome of a call: a returned value (for an awaited promise, the
    value it is fulfilled with), or a thrown one (the rejection reason). *)
Inductive Outcome (A : Type) : Type :=
| Returned (a : A)
| Threw (e : JSValue).
Arguments Returned {A} a.
Arguments Threw {A} e.

(** ** Filter predicates ([types/index]) *)

Inductive PredicateOperator : Type := And | Or.

Definition operatorName (op : PredicateOperator) : string :=
  match op with And => "and" | Or => "or" end.

(** [FieldConstraint | Predicate], a union discriminated by [operator]:
    [and] and [or] tag a Predicate, whose [value] is the list of its
    constituents and whose [field] is undefined; every other operator tags
    a FieldConstraint. *)
Inductive Filter : Type :=
| Predicate (operator : PredicateOperator) (value : list Filter)
| FieldConstraint (field : string) (operator : string) (value : JSON).

(** ** Mongoose adapter helpers ([db-adapters/Mongoose/lib.ts]) *)

Module Mongoose.

Section ErrorHandler.

(** [Errors.invalidFieldValue], [Errors.uniqueViolation] (from
    [util/errors]) and [APIError.fromError] are declared outside the
    sources at hand. *)
Variable invalidFieldValue : ErrorOpts -> APIError.
Variable uniqueViolation : ErrorOpts -> APIError.
Variable fromError : JSValue -> APIError.

(** The body of the [forEach] over [Object.keys(err.errors)]. *)
Definition formatFieldError (err : ErrorObject)
    (entry : string * ErrorObject) : JSValue :=
  let thisError := snd entry in
  if String.eqb (ErrorObject.name err) "ValidationError"
  then JSAPIError (invalidFieldValue
         {| ErrorOpts.detail := Some (ErrorObject.message thisError);
            ErrorOpts.rawError := Some thisError;
            ErrorOpts.code := None |})
  else JSAPIError (fromError (JSErrorObj thisError)).

(** [errorHandler(err): never]: the call never returns; it throws the
    array [errors] it has filled. *)
Definition errorHandler (err : ErrorObject) : Outcome Empty_set :=
  let errors :=
    match ErrorObject.errors err with
    | Some fieldErrors => map (formatFieldError err) fieldErrors
    | None =>
        if String.eqb (ErrorObject.name err) "MongoError"
           && bool_decide (ErrorObject.code err = Some 11000)
        then [JSAPIError (uniqueViolation
                {| ErrorOpts.detail := None;
                   ErrorOpts.rawError := Some err;
                   ErrorOpts.code := Some 11000 |})]
        else [JSErrorObj err]
    end in
  Threw (JSArray errors).

End ErrorHandler.

(** ["$" + (operator === 'neq' ? 'ne' : operator)] *)
Definition mongoOperator (operator : string) : string :=
  "$" ++ (if String.eqb operator "neq" then "ne" else operator).

(** [field === 'id' ? '_id' : field]; only read for a FieldConstraint. *)
Definition mongoField (field : string) : string :=
  if String.eqb field "id" then "_id" else field.

Fixpoint toMongoCriteria (constraintOrPredicate : Filter) : JSON :=
  match constraintOrPredicate with
  | Predicate operator value =>
      if (length value =? 0)%nat
      then JObj []
      else JObj [(mongoOperator (operatorName operator),
                  JArr (map toMongoCriteria value))]
  | FieldConstraint field operator value =>
      if String.eqb operator "eq"
      then JObj [(mongoField field, value)]
      else JObj [(mongoField field, JObj [(mongoOperator operator, value)])]
  end.

End Mongoose.

(** ** The protocol-agnostic request ([types/HTTP/Request]) *)

(** The identifier slot: absent, [null], one id (or a label), or several
    ids. *)
Inductive IdOrIds : Type :=
| IdUndefined
| IdNull
| IdOne (id : string)
| IdMany (ids : list string).

(** Truthiness of the identifier slot: arrays are truthy even when empty. *)
Definition truthyIds (v : IdOrIds) : bool :=
  match v with
  | IdUndefined | IdNull => false
  | IdOne id => truthyString id
  | IdMany _ => true
  end.

(** The slot as a route parameter leaves it. *)
Definition idOfParam (o : option string) : IdOrIds :=
  match o with Some s => IdOne s | None => IdUndefined end.

Record Resource : Type := mkResource {
  resourceType : string;
  resourceId : option string;
  attrs : list (string * JSON)
}.

(** Primary data: [null], a single Resource or a Collection. *)
Inductive Primary : Type :=
| PrimaryNull
| PrimaryResource (r : Resource)
| PrimaryCollection (members : list Resource).

(** The [queryParams] slot holds the raw parsed query string until the
    controller replaces it by the normalized parameters and the filter. *)
Inductive QueryParams : Type :=
| RawParams (q : JSON)
| ParsedParams (q : JSON) (filter : option (list Filter)).

Module Request.

Record t : Type := mk {
  queryParams : QueryParams;
  rawQueryString : option string;
  allowLabel : bool;
  idOrIds : IdOrIds;
  type : string;
  aboutRelationship : bool;
  relationship : option string;
  uri : string;
  method : string;
  accepts : option string;
  contentType : option string;
  hasBody : bool;
  body : option JSON;
  primary : option Primary
}.

Definition setMethod (m : string) (r : t) : t :=
  mk (queryParams r) (rawQueryString r) (allowLabel r) (idOrIds r) (type r)
     (aboutRelationship r) (relationship r) (uri r) m (accepts r)
     (contentType r) (hasBody r) (body r) (primary r).

Definition setContentType (c : option string) (r : t) : t :=
  mk (queryParams r) (rawQueryString r) (allowLabel r) (idOrIds r) (type r)
     (aboutRelationship r) (relationship r) (uri r) (method r) (accepts r)
     c (hasBody r) (body r) (primary r).

Definition setBody (has : bool) (b : option JSON) (r : t) : t :=
  mk (queryParams r) (rawQueryString r) (allowLabel r) (idOrIds r) (type r)
     (aboutRelationship r) (relationship r) (uri r) (method r) (accepts r)
     (contentType r) has b (primary r).

Definition setIdOrIds (v : IdOrIds) (r : t) : t :=
  mk (queryParams r) (rawQueryString r) (allowLabel r) v (type r)
     (aboutRelationship r) (relationship r) (uri r) (method r) (accepts r)
     (contentType r) (hasBody r) (body r) (primary r).

Definition setQueryParams (q : QueryParams) (r : t) : t :=
  mk q (rawQueryString r) (allowLabel r) (idOrIds r) (type r)
     (aboutRelationship r) (relationship r) (uri r) (method r) (accepts r)
     (contentType r) (hasBody r) (body r) (primary r).

Definition setPrimary (p : option Primary) (r : t) : t :=
  mk (queryParams r) (rawQueryString r) (allowLabel r) (idOrIds r) (type r)
     (aboutRelationship r) (relationship r) (uri r) (method r) (accepts r)
     (contentType r) (hasBody r) (body r) p.

End Request.
Abbreviation Request := Request.t.

(** ** Computations with state and exceptions *)

(** A computation over a state [S] that returns or throws; [await]ing a
    rejected promise throws its reason. *)
Definition Comp (S A : Type) : Type := S -> S * Outcome A.

Definition ret {S A : Type} (a : A) : Comp S A :=
  fun s => (s, Returned a).

Definition throw {S A : Type} (e : JSValue) : Comp S A :=
  fun s => (s, Threw e).

Definition bind {S A B : Type} (m : Comp S A) (k : A -> Comp S B)
    : Comp S B :=
  fun s =>
    match m s with
    | (s', Returned a) => k a s'
    | (s', Threw e) => (s', Threw e)
    end.

(** The outcome of a call to a collaborator, awaited where it is a
    promise. *)
Definition await {S A : Type} (o : Outcome A) : Comp S A :=
  fun s => (s, o).

Definition modify {S : Type} (f : S -> S) : Comp S unit :=
  fun s => (f s, Returned tt).

(** [try { m } catch (err) { h err }] *)
Definition tryCatch {S A : Type} (m : Comp S A) (h : JSValue -> Comp S A)
    : Comp S A :=
  fun s =>
    match m s with
    | (s', Returned a) => (s', Returned a)
    | (s', Threw e) => h e s'
    end.

Declare Scope comp_scope.
Delimit Scope comp_scope with comp.
Notation "x <- m ;; k" := (bind m (fun x => k))
  (at level 100, m at next level, right associativity) : comp_scope.
Notation "m ;;; k" := (bind m (fun _ => k))
  (at level 100, right associativity) : comp_scope.
Local Open Scope comp_scope.

(** ** HTTP base strategy *)

Module Strategy.

(** [HTTPStrategyOptions]: every option is optional. *)
Record HTTPStrategyOptions : Type := mkOptions {
  handleContentNegotiation : option bool;
  tunnel : option bool;
  host : option string
}.

(** The [config] set up by the constructor:
    [{ tunnel: false, handleContentNegotiation: true, ...options }]. *)
Definition newConfig (options : option HTTPStrategyOptions)
    : HTTPStrategyOptions :=
  match options with
  | None => mkOptions (Some true) (Some false) None
  | Some o =>
      mkOptions
        (Some (default true (handleContentNegotiation o)))
        (Some (default false (tunnel o)))
        (host o)
  end.

(** Node's [http.IncomingMessage], as far as it is read here.
    [readableState] is [Some endEmitted] when [req._readableState] is an
    object. *)
Record IncomingMessage : Type := mkIncomingMessage {
  url : string;
  method : string;
  headers : gmap string string;
  encrypted : bool;
  readableState : option bool
}.

(** The route parameters. *)
Record Params : Type := mkParams {
  id : option string;
  idOrLabel : option string;
  type : string;
  relationship : option string;
  related : option string
}.

(** The result of [contentType.parse]. *)
Record ParsedMediaType : Type := mkParsedMediaType {
  mediaType : string;
  parameters : gmap string string
}.

(** The options handed to [getRawBody]. *)
Record BodyParserOptions : Type := mkBodyParserOptions {
  encoding : string;
  limit : string;
  length : option string
}.

(** Library and built-in functions the strategy calls: [qs.parse], the
    global [isNaN] applied to a header string, [contentType.parse],
    [getRawBody] (the error or the text it hands to its callback) and
    [JSON.parse] ([None] when it throws). *)
Record Platform : Type := mkPlatform {
  qsParse : string -> JSON;
  isNaN : string -> bool;
  contentTypeParse : IncomingMessage -> Outcome ParsedMediaType;
  getRawBody : IncomingMessage -> BodyParserOptions -> Outcome string;
  JSONparse : string -> option JSON
}.

(** A promise: pending, or settled once and for all. *)
Inductive Promise (A : Type) : Type :=
| Pending
| Fulfilled (a : A)
| Rejected (e : JSValue).
Arguments Pending {A}.
Arguments Fulfilled {A} a.
Arguments Rejected {A} e.

(** [resolve] and [reject] settle a pending promise and do nothing to a
    settled one; either way the executor carries on. *)
Definition resolve {A : Type} (a : A) : Comp (Promise A) unit :=
  modify (fun p => match p with Pending => Fulfilled a | _ => p end).

Definition reject {A : Type} (e : JSValue) : Comp (Promise A) unit :=
  modify (fun p => match p with Pending => Rejected e | _ => p end).

(** [new Promise(executor)]: an exception thrown by the executor rejects
    the promise, if it is still pending. *)
Definition newPromise {A : Type} (executor : Comp (Promise A) unit)
    : Promise A :=
  match executor Pending with
  | (p, Returned _) => p
  | (Pending, Threw e) => Rejected e
  | (p, Threw _) => p
  end.

(** [isNaN(header)]: [isNaN(undefined)] is [true]. *)
Definition isNaNHeader (P : Platform) (h : option string) : bool :=
  match h with Some s => isNaN P s | None => true end.

Definition hasBody (P : Platform) (req : IncomingMessage) : bool :=
  bool_decide (headers req !! "transfer-encoding" <> None)
  || negb (isNaNHeader P (headers req !! "content-length")).

Definition isReadableStream (req : IncomingMessage) : bool :=
  match readableState req with
  | Some endEmitted => negb endEmitted
  | None => false
  end.

(** The text of the tunneling error:
    [`Cannot tunnel to the method "${requestedMethod.toUpperCase()}".`] *)
Definition tunnelMessage (requestedMethod : string) : string :=
  "Cannot tunnel to the method " ++ dquote
    ++ toUpperCase requestedMethod ++ dquote ++ ".".

(** The callback given to [getRawBody]. *)
Definition onRawBody (P : Platform) (it : Request) (read : Outcome string)
    : Comp (Promise Request) unit :=
  match read with
  | Threw err => reject err
  | Returned string =>
      if (String.length string =? 0)%nat
      then resolve (Request.setBody false (Some (JStr "")) it)
      else
        match JSONparse P string with
        | Some parsed => resolve (Request.setBody true (Some parsed) it)
        | None =>
            reject (JSAPIError
              (newAPIError 400 None "Request contains invalid JSON."))
        end
  end.

(** The request [it] as the executor has filled it in before it turns to
    tunneling and to the body. *)
Definition initialRequest (P : Platform) (config : HTTPStrategyOptions)
    (req : IncomingMessage) (protocol fallbackHost : option string)
    (params : Params) (parsedQuery : option JSON) : Request :=
  let queryStartIndex := String.index 0 "?" (url req) in
  let rawQueryString :=
    match queryStartIndex with
    | Some i =>
        Some (String.substring (S i) (String.length (url req) - S i)
                (url req))
    | None => None
    end in
  let protocol :=
    orElse protocol (Some (if encrypted req then "https" else "http")) in
  let host := orElse (Strategy.host config) fallbackHost in
  {| Request.queryParams :=
       RawParams
         match parsedQuery, rawQueryString with
         | Some q, _ => q
         | None, Some raw => qsParse P raw
         | None, None => JObj []
         end;
     Request.rawQueryString :=
       if truthyOptString rawQueryString then rawQueryString else None;
     Request.allowLabel :=
       truthyOptString (idOrLabel params)
       && negb (truthyOptString (id params));
     Request.idOrIds := idOfParam (orElse (id params) (idOrLabel params));
     Request.type := type params;
     Request.aboutRelationship := truthyOptString (relationship params);
     Request.relationship := orElse (related params) (relationship params);
     Request.uri := display protocol ++ "://" ++ display host ++ url req;
     Request.method := toLowerCase (method req);
     Request.accepts := headers req !! "accept";
     Request.contentType := None;
     Request.hasBody := false;
     Request.body := None;
     Request.primary := None |}.

(** [(req.headers["x-http-method-override"] || "").toLowerCase()] *)
Definition requestedMethod (req : IncomingMessage) : string :=
  toLowerCase
    (default "" (orElse (headers req !! "x-http-method-override") (Some ""))).

(** Verb tunneling, only for PATCH and only if the user turns it on.  The
    rejecting branch calls [reject] without returning, so the executor
    carries on after it. *)
Definition tunnelVerb (config : HTTPStrategyOptions) (it : Request)
    (requestedMethod : string) : Comp (Promise Request) Request :=
  if bool_decide (tunnel config = Some true)
     && String.eqb (Request.method it) "post"
     && String.eqb requestedMethod "patch"
  then ret (Request.setMethod "patch" it)
  else if truthyString requestedMethod
  then reject (JSAPIError
         (newAPIError 400 None (tunnelMessage requestedMethod))) ;;;
       ret it
  else ret it.

(** Reading the body, if there is one; the unreadable-stream branch
    returns from the executor. *)
Definition readBody (P : Platform) (req : IncomingMessage) (it : Request)
    : Comp (Promise Request) unit :=
  if hasBody P req
  then
    if negb (isReadableStream req)
    then reject (JSAPIError (newAPIError 500 None
           ("Request body could not be parsed. Make sure other no other "
            ++ "middleware has already parsed the request body.")))
    else
      let it :=
        Request.setContentType (headers req !! "content-type") it in
      typeParsed <-
        (if truthyOptString (Request.contentType it)
         then await (contentTypeParse P req)
         else throw (JSErrorObj TypeError)) ;;
      let bodyParserOptions :=
        {| encoding :=
             default "utf8"
               (orElse (parameters typeParsed !! "charset") (Some "utf8"));
           limit := "1mb";
           length :=
             if truthyOptString (headers req !! "content-length")
                && negb (isNaNHeader P (headers req !! "content-length"))
             then headers req !! "content-length"
             else None |} in
      onRawBody P it (getRawBody P req bodyParserOptions)
  else resolve (Request.setBody false None it).

(** The executor of the promise that [buildRequestObject] returns. *)
Definition buildRequestExecutor (P : Platform)
    (config : HTTPStrategyOptions) (req : IncomingMessage)
    (protocol fallbackHost : option string) (params : Params)
    (parsedQuery : option JSON) : Comp (Promise Request) unit :=
  it <- tunnelVerb config
          (initialRequest P config req protocol fallbackHost params
             parsedQuery)
          (requestedMethod req) ;;
  readBody P req it.

Definition buildRequestObject (P : Platform)
    (config : HTTPStrategyOptions) (req : IncomingMessage)
    (protocol fallbackHost : option string) (params : Params)
    (parsedQuery : option JSON) : Promise Request :=
  newPromise
    (buildRequestExecutor P config req protocol fallbackHost params
       parsedQuery).

End Strategy.

(** ** Documents, results and responses ([types]) *)

Module DocumentData.

Record t : Type := mk {
  primary : option Primary;
  included : option Primary;
  errors : option (list APIError)
}.

End DocumentData.
Abbreviation DocumentData := DocumentData.t.

(** The envelope; [new Document({ reqURI, urlTemplates, ...data })] keeps
    what it is given. *)
Module Document.

Record t : Type := mk {
  reqURI : option string;
  urlTemplates : option JSON;
  primary : option Primary;
  included : option Primary;
  errors : option (list APIError)
}.

Definition setPrimary (p : option Primary) (d : t) : t :=
  mk (reqURI d) (urlTemplates d) p (included d) (errors d).

Definition setIncluded (i : option Primary) (d : t) : t :=
  mk (reqURI d) (urlTemplates d) (primary d) i (errors d).

End Document.
Abbreviation Document := Document.t.

Definition newDocument (reqURI : option string) (urlTemplates : option JSON)
    (data : DocumentData) : Document :=
  {| Document.reqURI := reqURI;
     Document.urlTemplates := urlTemplates;
     Document.primary := DocumentData.primary data;
     Document.included := DocumentData.included data;
     Document.errors := DocumentData.errors data |}.

Module Result.

Record t : Type := mk {
  document : option Document;
  status : option Z;
  headers : option (gmap string string)
}.

Definition setDocument (d : option Document) (r : t) : t :=
  mk d (status r) (headers r).

End Result.
Abbreviation Result := Result.t.

Module HTTPResponse.

Record t : Type := mk {
  status : option Z;
  headers : gmap string string;
  body : option string
}.

End HTTPResponse.
Abbreviation HTTPResponse := HTTPResponse.t.

(** ** Queries, adapters and the registry *)

(** Modelled from the spec: the Query built by the verb-specific builders,
    a verb-specific record plus the callbacks [returning] and [catch]. *)
Module Query.

Record t : Type := mk {
  criteria : JSON;
  returning : JSON -> Outcome Result;
  catch : option (JSValue -> Outcome Result)
}.

End Query.
Abbreviation Query := Query.t.

(** Modelled from the spec: the storage adapter contract.  A call to
    [doQuery] either throws, or returns a promise of the raw result that is
    fulfilled or rejected; the operator lists are statics of the adapter's
    class. *)
Module Adapter.

Record t : Type := mk {
  doQuery : option Query -> Outcome (Outcome JSON);
  unaryFilterOperators : list string;
  binaryFilterOperators : list string
}.

End Adapter.
Abbreviation Adapter := Adapter.t.

(** Modelled from the spec: the Resource Type Registry, a mapping from type
    name to the type's adapter, together with the URL templates. *)
Module Registry.

Record t : Type := mk {
  types : gmap string Adapter;
  urlTemplates : JSON
}.

Definition hasType (r : t) (type : string) : bool :=
  bool_decide (is_Some (types r !! type)).

Definition dbAdapter (r : t) (type : string) : option Adapter :=
  types r !! type.

End Registry.
Abbreviation Registry := Registry.t.

(** The framework's own request and response objects: the controller only
    passes them on. *)
Definition FrameworkObject : Type := JSON.

Inductive TransformMode : Type := beforeSave | beforeRender.

Module Extras.

Record t : Type := mk {
  frameworkReq : FrameworkObject;
  frameworkRes : FrameworkObject;
  request : Request;
  registry : Registry
}.

End Extras.
Abbreviation Extras := Extras.t.

(** The pipeline steps the controller imports ([steps/...]),
    [APIError.fromError] and [Document.prototype.toString], all declared
    outside the sources at hand.  A step that returns a promise is given by
    the outcome of awaiting it. *)
Record Steps : Type := mkSteps {
  checkMethod : Request -> Outcome unit;
  checkBodyExistence : Request -> Outcome unit;
  negotiateContentType : option string -> list string -> Outcome string;
  validateContentType : Request -> list string -> Outcome unit;
  labelToIds :
    string -> IdOrIds -> Registry -> FrameworkObject -> Outcome IdOrIds;
  parseRequestPrimary : option JSON -> bool -> Outcome (option Primary);
  validateRequestDocument : option JSON -> Outcome unit;
  validateRequestResources :
    string -> option Primary -> Registry -> Outcome unit;
  parseQueryParams : QueryParams -> Outcome JSON;
  applyTransform :
    option Primary -> TransformMode -> Extras -> Outcome (option Primary);
  makeGET : Request -> Registry -> (DocumentData -> Document) -> Outcome Query;
  makePOST :
    Request -> Registry -> (DocumentData -> Document) -> Outcome Query;
  makePATCH :
    Request -> Registry -> (DocumentData -> Document) -> Outcome Query;
  makeDELETE :
    Request -> Registry -> (DocumentData -> Document) -> Outcome Query;
  fromError : JSValue -> APIError;
  toString : Document -> string
}.

(** ** The API controller *)

Module API.

Definition FilterParamParser : Type :=
  list string -> list string -> option string -> QueryParams ->
  Outcome (option (list Filter)).

Record APIController : Type := mkAPIController {
  registry : Registry;
  filterParamParser : FilterParamParser
}.

Definition supportedExt : list string := [].

(** What a call of [handle] does to its collaborators, in order. *)
Inductive Event : Type :=
| CalledDbAdapter (type : string)
| BuiltQuery (method : string)
| CalledDoQuery (query : option Query)
| Logged (err : JSValue).

(** The state of one call of [handle]: the local [contentType] and the
    calls made so far. *)
Record PipelineState : Type := mkPipelineState {
  contentType : option string;
  events : list Event
}.

Definition setNegotiated (c : string) (s : PipelineState) : PipelineState :=
  mkPipelineState (Some c) (events s).

Definition logEvent (e : Event) : Comp PipelineState unit :=
  modify (fun s => mkPipelineState (contentType s) (events s ++ [e])).

(** Returns the status code that best represents a set of error
    statuses: [errStatuses[0]]. *)
Definition pickStatus (errStatuses : list Z) : option Z :=
  head errStatuses.

(** [Array.isArray(errors) ? errors : [errors]] *)
Definition toErrorArray (errors : JSValue) : list JSValue :=
  match errors with
  | JSArray items => items
  | _ => [errors]
  end.

Definition makeResultFromErrors (fromError : JSValue -> APIError)
    (makeDoc : DocumentData -> Document) (errors : JSValue) : Result :=
  let errorsArray := map fromError (toErrorArray errors) in
  let status := pickStatus (map APIError.status errorsArray) in
  {| Result.document :=
       Some (makeDoc {| DocumentData.primary := None;
                        DocumentData.included := None;
                        DocumentData.errors := Some errorsArray |});
     Result.status := status;
     Result.headers := None |}.

Definition resultToHTTPResponse (toString : Document -> string)
    (response : Result) (negotiatedMediaType : option string)
    : HTTPResponse :=
  let headers : gmap string string :=
    default ∅ (Result.headers response)
    ∪ {[ "content-type" :=
           default "application/vnd.api+json"
             (orElse negotiatedMediaType
                (Some "application/vnd.api+json"));
         "vary" := "Accept" ]} in
  let status :=
    if truthyOptNumber (Result.status response)
    then Result.status response
    else
      match Result.document response with
      | Some document =>
          match Document.errors document with
          | Some errors => pickStatus (map APIError.status errors)
          | None => Some 200
          end
      | None => Some 204
      end in
  {| HTTPResponse.status := status;
     HTTPResponse.headers := headers;
     HTTPResponse.body := toString <$> Result.document response |}.

(** Whether [APIError.fromError] returns on every error of a failure
    value.  The coercion is not among the sources: on the values it
    coerces it is the parameter [fromError]; on [null] and [undefined] it
    has nothing to read the properties of an error from, and throws a
    [TypeError], as the read of [err.stack] in the [catch] block does. *)
Definition coercible (errors : JSValue) : bool :=
  forallb (fun v => negb (isNullish v)) (toErrorArray errors).

(** A call of [makeResultFromErrors]: the Result, or the [TypeError] of
    the coercion. *)
Definition callMakeResultFromErrors (fromError : JSValue -> APIError)
    (makeDoc : DocumentData -> Document) (errors : JSValue)
    : Outcome Result :=
  if coercible errors
  then Returned (makeResultFromErrors fromError makeDoc errors)
  else Threw (JSErrorObj TypeError).

(** The property read [request.body.data]. *)
Definition bodyData (body : option JSON) : Outcome (option JSON) :=
  match body with
  | None | Some JNull => Threw (JSErrorObj TypeError)
  | Some (JObj members) =>
      Returned (snd <$> find (fun m => String.eqb (fst m) "data") members)
  | Some _ => Returned None
  end.

(** What the first part of the [try] block hands to the dispatch. *)
Record Prepared : Type := mkPrepared {
  request : Request;
  adapter : Adapter;
  query : option Query;
  supportsLabelMapping : bool;
  mappedLabel : IdOrIds
}.

Definition makeDocFor (registry : Registry) (request : Request)
    : DocumentData -> Document :=
  newDocument (Some (Request.uri request))
    (Some (Registry.urlTemplates registry)).

Definition extrasFor (registry : Registry)
    (frameworkReq frameworkRes : FrameworkObject) (request : Request)
    : Extras :=
  {| Extras.frameworkReq := frameworkReq;
     Extras.frameworkRes := frameworkRes;
     Extras.request := request;
     Extras.registry := registry |}.

(** The [try] block of [handle] up to and including the construction of
    the query. *)
Definition prepare (E : Steps) (this : APIController) (request : Request)
    (frameworkReq frameworkRes : FrameworkObject)
    (queryTransform : option (Query -> Outcome Query))
    : Comp PipelineState Prepared :=
  let registry := registry this in
  let makeDoc := makeDocFor registry request in
  await (checkMethod E request) ;;;
  await (checkBodyExistence E request) ;;;
  negotiated <-
    await (negotiateContentType E (Request.accepts request)
             ["application/vnd.api+json"]) ;;
  modify (setNegotiated negotiated) ;;;
  if negb (Registry.hasType registry (Request.type request))
  then throw (JSAPIError (newAPIError 404 None
                (Request.type request ++ " is not a valid type.")))
  else
    let supportsLabelMapping :=
      truthyIds (Request.idOrIds request) && Request.allowLabel request in
    mappedLabel <-
      (if supportsLabelMapping
       then await (labelToIds E (Request.type request)
                     (Request.idOrIds request) registry frameworkReq)
       else ret IdUndefined) ;;
    let request :=
      if supportsLabelMapping
      then Request.setIdOrIds mappedLabel request
      else request in
    logEvent (CalledDbAdapter (Request.type request)) ;;;
    adapter <-
      match Registry.dbAdapter registry (Request.type request) with
      | Some adapter => ret adapter
      | None => throw (JSErrorObj TypeError)
      end ;;
    parsedParams <- await (parseQueryParams E (Request.queryParams request)) ;;
    filter <-
      await (filterParamParser this
               (Adapter.unaryFilterOperators adapter)
               (Adapter.binaryFilterOperators adapter)
               (Request.rawQueryString request)
               (Request.queryParams request)) ;;
    let request :=
      Request.setQueryParams (ParsedParams parsedParams filter) request in
    request <-
      (if Request.hasBody request
       then
         await (validateContentType E request supportedExt) ;;;
         await (validateRequestDocument E (Request.body request)) ;;;
         data <- await (bodyData (Request.body request)) ;;
         parsedPrimary <-
           await (parseRequestPrimary E data
                    (Request.aboutRelationship request)) ;;
         (if negb (Request.aboutRelationship request)
          then await (validateRequestResources E (Request.type request)
                        parsedPrimary registry)
          else ret tt) ;;;
         transformed <-
           await (applyTransform E parsedPrimary beforeSave
                    (extrasFor registry frameworkReq frameworkRes request)) ;;
         ret (Request.setPrimary transformed request)
       else ret request) ;;
    let queryTransform := default Returned queryTransform in
    let build (make : Request -> Registry -> (DocumentData -> Document) ->
                      Outcome Query) : Comp PipelineState (option Query) :=
      logEvent (BuiltQuery (Request.method request)) ;;;
      made <- await (make request registry makeDoc) ;;
      transformed <- await (queryTransform made) ;;
      ret (Some transformed) in
    query <-
      (if String.eqb (Request.method request) "get" then build (makeGET E)
       else if String.eqb (Request.method request) "post"
       then build (makePOST E)
       else if String.eqb (Request.method request) "patch"
       then build (makePATCH E)
       else if String.eqb (Request.method request) "delete"
       then build (makeDELETE E)
       else ret None) ;;
    ret (mkPrepared request adapter query supportsLabelMapping mappedLabel).

(** [mappedLabel == null || (Array.isArray(mappedLabel) &&
    !mappedLabel.length)] *)
Definition mappedToNothing (mappedLabel : IdOrIds) : bool :=
  match mappedLabel with
  | IdUndefined | IdNull | IdMany [] => true
  | _ => false
  end.

(** The assignment to [jsonAPIResult]: the known result when a label
    mapped to nothing, the outcome of the query otherwise. *)
Definition dispatch (E : Steps) (makeDoc : DocumentData -> Document)
    (p : Prepared) : Comp PipelineState Result :=
  let labelMappedToNothing :=
    supportsLabelMapping p && mappedToNothing (mappedLabel p) in
  if labelMappedToNothing
  then
    ret {| Result.document :=
             Some (makeDoc
               {| DocumentData.primary :=
                    Some (if truthyIds (mappedLabel p)
                          then PrimaryCollection []
                          else PrimaryNull);
                  DocumentData.included := None;
                  DocumentData.errors := None |});
           Result.status := None;
           Result.headers := None |}
  else
    logEvent (CalledDoQuery (query p)) ;;;
    promise <- await (Adapter.doQuery (adapter p) (query p)) ;;
    match query p with
    | None => throw (JSErrorObj TypeError)
    | Some query =>
        match promise with
        | Returned raw => await (Query.returning query raw)
        | Threw err =>
            match Query.catch query with
            | Some handler => await (handler err)
            | None =>
                await (callMakeResultFromErrors (fromError E) makeDoc err)
            end
        end
    end.

(** The [beforeRender] transforms, applied when there is a document. *)
Definition render (E : Steps) (extras : Extras) (jsonAPIResult : Result)
    : Comp PipelineState Result :=
  match Result.document jsonAPIResult with
  | Some document =>
      primary <-
        await (applyTransform E (Document.primary document) beforeRender
                 extras) ;;
      included <-
        await (applyTransform E (Document.included document) beforeRender
                 extras) ;;
      ret (Result.setDocument
             (Some (Document.setIncluded included
                      (Document.setPrimary primary document)))
             jsonAPIResult)
  | None => ret jsonAPIResult
  end.

Definition tryBlock (E : Steps) (this : APIController) (request : Request)
    (frameworkReq frameworkRes : FrameworkObject)
    (queryTransform : option (Query -> Outcome Query))
    : Comp PipelineState Result :=
  p <- prepare E this request frameworkReq frameworkRes queryTransform ;;
  jsonAPIResult <-
    dispatch E (makeDocFor (registry this) request) p ;;
  render E
    (extrasFor (registry this) frameworkReq frameworkRes (API.request p))
    jsonAPIResult.

(** [errorsArr.forEach(err => logger.info(..., err, err.stack))]: reading
    [stack] off [null] or [undefined] throws. *)
Fixpoint logErrors (errorsArr : list JSValue) : Comp PipelineState unit :=
  match errorsArr with
  | [] => ret tt
  | err :: rest =>
      (if isNullish err
       then throw (JSErrorObj TypeError)
       else logEvent (Logged err)) ;;;
      logErrors rest
  end.

Definition catchBlock (E : Steps) (makeDoc : DocumentData -> Document)
    (err : JSValue) : Comp PipelineState Result :=
  jsonAPIResult <-
    await (callMakeResultFromErrors (fromError E) makeDoc err) ;;
  logErrors (toErrorArray err) ;;;
  ret jsonAPIResult.

(** The [try]/[catch] of [handle]: the Result to convert. *)
Definition settle (E : Steps) (this : APIController) (request : Request)
    (frameworkReq frameworkRes : FrameworkObject)
    (queryTransform : option (Query -> Outcome Query))
    : Comp PipelineState Result :=
  tryCatch
    (tryBlock E this request frameworkReq frameworkRes queryTransform)
    (catchBlock E (makeDocFor (registry this) request)).

Definition initialState : PipelineState := mkPipelineState None [].

(** [handle]: the final state (the local [contentType] and the calls
    made) and the response returned, or the value the call rejects
    with. *)
Definition handle (E : Steps) (this : APIController) (request : Request)
    (frameworkReq frameworkRes : FrameworkObject)
    (queryTransform : option (Query -> Outcome Query))
    : PipelineState * Outcome HTTPResponse :=
  (jsonAPIResult <-
     settle E this request frameworkReq frameworkRes queryTransform ;;
   fun s =>
     (s, Returned (resultToHTTPResponse (toString E) jsonAPIResult
                     (contentType s))))
    initialState.

End API.

(** ** Sample collaborators

    Concrete steps, adapters and requests on which the statements below are
    exercised. *)

Module Examples.

(** Modelled from the spec: the generic from-error coercion
    [APIError.fromError]: an APIError is kept as it is, any other value
    becomes a generic internal error that keeps the raw error. *)
Definition fromErrorModel (v : JSValue) : APIError :=
  match v with
  | JSAPIError e => e
  | JSErrorObj e =>
      APIError.mk 500 None
        (Some "An unknown error occurred while trying to process this request.")
        None (Some e)
  | _ =>
      APIError.mk 500 None
        (Some "An unknown error occurred while trying to process this request.")
        None None
  end.

(** Modelled from the spec: the factories of [util/errors] for the
    UniqueViolation and UnprocessableEntity kinds of the taxonomy. *)
Definition uniqueViolation (opts : ErrorOpts) : APIError :=
  APIError.mk 409 (ErrorOpts.code opts) (Some "Unique violation")
    (ErrorOpts.detail opts) (ErrorOpts.rawError opts).

Definition invalidFieldValue (opts : ErrorOpts) : APIError :=
  APIError.mk 422 (ErrorOpts.code opts) (Some "Invalid field value")
    (ErrorOpts.detail opts) (ErrorOpts.rawError opts).

(** A validation error whose collection of field errors is empty. *)
Definition emptyValidationError : ErrorObject :=
  ErrorObject.mk "ValidationError" "Validation failed" None (Some []).

(** The driver's duplicate-key error. *)
Definition duplicateKey : ErrorObject :=
  ErrorObject.mk "MongoError" "E11000 duplicate key error" (Some 11000) None.

(** A platform on which requests carry no readable body text. *)
Definition platform : Strategy.Platform :=
  {| Strategy.qsParse := fun _ => JObj [];
     Strategy.isNaN := fun s => negb (String.eqb s "0");
     Strategy.contentTypeParse := fun _ =>
       Returned (Strategy.mkParsedMediaType "application/vnd.api+json" ∅);
     Strategy.getRawBody := fun _ _ => Returned "";
     Strategy.JSONparse := fun _ => None |}.

(** [POST /people/1] with [x-http-method-override: patch]. *)
Definition tunneled : Strategy.IncomingMessage :=
  {| Strategy.url := "/people/1";
     Strategy.method := "post";
     Strategy.headers := {[ "x-http-method-override" := "patch" ]};
     Strategy.encrypted := false;
     Strategy.readableState := None |}.

(** [GET /people/1] with [x-http-method-override: delete]. *)
Definition overridden : Strategy.IncomingMessage :=
  {| Strategy.url := "/people/1";
     Strategy.method := "GET";
     Strategy.headers := {[ "x-http-method-override" := "DELETE" ]};
     Strategy.encrypted := false;
     Strategy.readableState := None |}.

Definition params : Strategy.Params :=
  {| Strategy.id := Some "1";
     Strategy.idOrLabel := None;
     Strategy.type := "people";
     Strategy.relationship := None;
     Strategy.related := None |}.

Definition tunnelOff : Strategy.HTTPStrategyOptions :=
  Strategy.newConfig None.

Definition tunnelOn : Strategy.HTTPStrategyOptions :=
  Strategy.newConfig (Some (Strategy.mkOptions None (Some true) None)).

(** A query whose [returning] yields an empty collection under the given
    header overrides. *)
Definition query (headers : option (gmap string string))
    (makeDoc : DocumentData -> Document) : Query :=
  {| Query.criteria := JObj [];
     Query.returning := fun _ =>
       Returned
         {| Result.document :=
              Some (makeDoc (DocumentData.mk (Some (PrimaryCollection []))
                               None None));
            Result.status := None;
            Result.headers := headers |};
     Query.catch := None |}.

(** Steps that all succeed, but for the label mapper and the transform
    hooks, which are given. *)
Definition steps (mapper : Outcome IdOrIds)
    (hook : TransformMode -> option Primary -> Outcome (option Primary))
    (headers : option (gmap string string)) : Steps :=
  {| checkMethod := fun _ => Returned tt;
     checkBodyExistence := fun _ => Returned tt;
     negotiateContentType := fun _ _ => Returned "application/vnd.api+json";
     validateContentType := fun _ _ => Returned tt;
     labelToIds := fun _ _ _ _ => mapper;
     parseRequestPrimary := fun _ _ => Returned (Some PrimaryNull);
     validateRequestDocument := fun _ => Returned tt;
     validateRequestResources := fun _ _ _ => Returned tt;
     parseQueryParams := fun _ => Returned (JObj []);
     applyTransform := fun data mode _ => hook mode data;
     makeGET := fun _ _ makeDoc => Returned (query headers makeDoc);
     makePOST := fun _ _ makeDoc => Returned (query headers makeDoc);
     makePATCH := fun _ _ makeDoc => Returned (query headers makeDoc);
     makeDELETE := fun _ _ makeDoc => Returned (query headers makeDoc);
     fromError := fromErrorModel;
     toString := fun _ => "{}" |}.

Definition identityHook (_ : TransformMode) (data : option Primary)
    : Outcome (option Primary) :=
  Returned data.

(** A hook that rejects with [undefined], as [Promise.reject()] does. *)
Definition rejectingHook (_ : TransformMode) (_ : option Primary)
    : Outcome (option Primary) :=
  Threw JSUndefined.

Definition adapter : Adapter :=
  {| Adapter.doQuery := fun _ => Returned (Returned (JArr []));
     Adapter.unaryFilterOperators := ["and"; "or"];
     Adapter.binaryFilterOperators := ["eq"; "neq"; "gte"] |}.

Definition registry : Registry :=
  {| Registry.types := {[ "people" := adapter ]};
     Registry.urlTemplates := JObj [] |}.

Definition noFilter : API.FilterParamParser :=
  fun _ _ _ _ => Returned None.

(** A filter parser that rejects the filter as illegal. *)
Definition illegalFilter : API.FilterParamParser :=
  fun _ _ _ _ =>
    Threw (JSAPIError (newAPIError 400 None "Invalid filter.")).

Definition controller (parser : API.FilterParamParser) : API.APIController :=
  API.mkAPIController registry parser.

(** [GET /<type>/<idOrIds>], the identifier being a label when
    [allowLabel] is set. *)
Definition get (type : string) (idOrIds : IdOrIds) (allowLabel : bool)
    : Request :=
  {| Request.queryParams := RawParams (JObj []);
     Request.rawQueryString := None;
     Request.allowLabel := allowLabel;
     Request.idOrIds := idOrIds;
     Request.type := type;
     Request.aboutRelationship := false;
     Request.relationship := None;
     Request.uri := "http://example.com/" ++ type;
     Request.method := "get";
     Request.accepts := Some "application/vnd.api+json";
     Request.contentType := None;
     Request.hasBody := false;
     Request.body := None;
     Request.primary := None |}.

End Examples.

(** ** Further functions of the sources *)

(** [APIController.responseFromExternalError]: a response for errors that
    occur outside of the library.  If no acceptable content type is found
    the Accept header is ignored; the Document is made without a request
    URI.  The call of [makeResultFromErrors] stands outside the [try], so
    that a failure of the coercion rejects the call. *)
Definition responseFromExternalError (E : Steps) (errors : JSValue)
    (requestAccepts : option string) : Outcome HTTPResponse :=
  let contentType :=
    match negotiateContentType E requestAccepts
            ["application/vnd.api+json"] with
    | Returned negotiated => negotiated
    | Threw _ => "application/vnd.api+json"
    end in
  match API.callMakeResultFromErrors (fromError E) (newDocument None None)
          errors with
  | Returned result =>
      Returned (API.resultToHTTPResponse (toString E) result
                  (Some contentType))
  | Threw err => Threw err
  end.

(** The resources that the Mongoose adapter stores
    ([db-adapters/Mongoose/lib.ts], [resourceToDocObject]). *)
Module Store.

(** Modelled from the spec: the linkage of a relationship, resolvable to
    bare ids: none, one id, or several. *)
Inductive Linkage : Type :=
| LinkNone
| LinkOne (id : string)
| LinkMany (ids : list string).

(** [relationship.unwrapDataWith(it => it.id)] *)
Definition unwrapIds (l : Linkage) : JSON :=
  match l with
  | LinkNone => JNull
  | LinkOne id => JStr id
  | LinkMany ids => JArr (map JStr ids)
  end.

(** A Resource as [resourceToDocObject] reads it: its attributes (in
    [resource]), its type path and its relationships, in key order. *)
Record Stored : Type := mkStored {
  resource : Resource;
  typePath : option (list string);
  relationships : list (string * Linkage)
}.

(** An object filled key by key: a later assignment to a key replaces the
    earlier one. *)
Definition assign {V : Type} (res : gmap string V) (members : list (string * V))
    : gmap string V :=
  foldl (fun res member => <[fst member := snd member]> res) res members.

Definition resourceToDocObject (stored : Stored)
    (typePathFn : option (option (list string) -> gmap string JSON))
    : gmap string JSON :=
  let res : gmap string JSON :=
    match typePathFn with
    | Some fn => fn (typePath stored)
    | None => ∅
    end
    ∪ assign ∅ (attrs (resource stored)) in
  assign res
    (map (fun member => (fst member, unwrapIds (snd member)))
       (relationships stored)).

End Store.

(** ** Further samples *)

(** The steps with another method check. *)
Definition withCheckMethod (checkMethod' : Request -> Outcome unit)
    (E : Steps) : Steps :=
  {| checkMethod := checkMethod';
     checkBodyExistence := checkBodyExistence E;
     negotiateContentType := negotiateContentType E;
     validateContentType := validateContentType E;
     labelToIds := labelToIds E;
     parseRequestPrimary := parseRequestPrimary E;
     validateRequestDocument := validateRequestDocument E;
     validateRequestResources := validateRequestResources E;
     parseQueryParams := parseQueryParams E;
     applyTransform := applyTransform E;
     makeGET := makeGET E;
     makePOST := makePOST E;
     makePATCH := makePATCH E;
     makeDELETE := makeDELETE E;
     fromError := fromError E;
     toString := toString E |}.

Module Samples.

(** [GET /people/everyone?sort=name] over TLS, without a body. *)
Definition fetch : Strategy.IncomingMessage :=
  {| Strategy.url := "/people/everyone?sort=name";
     Strategy.method := "GET";
     Strategy.headers :=
       {[ "accept" := "application/vnd.api+json"; "host" := "evil.test" ]};
     Strategy.encrypted := true;
     Strategy.readableState := Some false |}.

(** The route parameters of [/:type/:idOrLabel]. *)
Definition labelled : Strategy.Params :=
  {| Strategy.id := None;
     Strategy.idOrLabel := Some "everyone";
     Strategy.type := "people";
     Strategy.relationship := None;
     Strategy.related := None |}.

(** [POST /people] with a body of twelve bytes, with or without a content
    type, on a stream that has ended or not. *)
Definition posted (contentType : option string) (ended : bool)
    : Strategy.IncomingMessage :=
  {| Strategy.url := "/people";
     Strategy.method := "POST";
     Strategy.headers :=
       match contentType with
       | Some mediaType =>
           {[ "content-length" := "12"; "content-type" := mediaType ]}
       | None => {[ "content-length" := "12" ]}
       end;
     Strategy.encrypted := false;
     Strategy.readableState := Some ended |}.

Definition collection : Strategy.Params :=
  {| Strategy.id := None;
     Strategy.idOrLabel := None;
     Strategy.type := "people";
     Strategy.relationship := None;
     Strategy.related := None |}.

(** A platform whose streams hold the given text and on which only [{}]
    parses as JSON. *)
Definition reader (text : string) : Strategy.Platform :=
  {| Strategy.qsParse := fun raw => JObj [("raw", JStr raw)];
     Strategy.isNaN := fun s => negb (String.eqb s "12");
     Strategy.contentTypeParse := fun _ =>
       Returned (Strategy.mkParsedMediaType "application/vnd.api+json"
                   {[ "charset" := "latin1" ]});
     Strategy.getRawBody := fun _ _ => Returned text;
     Strategy.JSONparse := fun s =>
       if String.eqb s "{}" then Some (JObj []) else None |}.

(** A strategy that is told its host. *)
Definition hosted : Strategy.HTTPStrategyOptions :=
  Strategy.newConfig
    (Some (Strategy.mkOptions None None (Some "api.example.com"))).

(** Steps that all succeed, but for the method check, which refuses the
    request. *)
Definition refusing : Steps :=
  let passing :=
    Examples.steps (Returned IdNull) Examples.identityHook None in
  withCheckMethod
    (fun _ => Threw (JSAPIError
                       (newAPIError 405 None "Method not supported.")))
    passing.

(** An adapter whose queries reject with [undefined]; a registry and a
    controller over it. *)
Definition failing : Adapter :=
  {| Adapter.doQuery := fun _ => Returned (Threw JSUndefined);
     Adapter.unaryFilterOperators := ["and"; "or"];
     Adapter.binaryFilterOperators := ["eq"] |}.

Definition unreliable : API.APIController :=
  API.mkAPIController
    {| Registry.types := {[ "people" := failing ]};
       Registry.urlTemplates := JObj [] |}
    Examples.noFilter.

(** The unique-violation error of a duplicate key; an adapter whose
    queries reject with it, as the Mongoose [errorHandler] throws it, and
    a controller over it. *)
Definition conflict : APIError :=
  Examples.uniqueViolation
    (ErrorOpts.mk None (Some Examples.duplicateKey) (Some 11000)).

Definition conflicting : API.APIController :=
  API.mkAPIController
    {| Registry.types :=
         {[ "people" :=
              {| Adapter.doQuery := fun _ =>
                   Returned (Threw (JSArray [JSAPIError conflict]));
                 Adapter.unaryFilterOperators := ["and"; "or"];
                 Adapter.binaryFilterOperators := ["eq"] |} ]};
       Registry.urlTemplates := JObj [] |}
    Examples.noFilter.

(** [POST /people] as the strategy hands it over when the stream has no
    body. *)
Definition bodyless : Request :=
  Request.setMethod "post" (Examples.get "people" IdUndefined false).

End Samples.

(** ** Vocabulary of the statements *)

(** A computation keeps a property of the state, whether it returns or
    throws. *)
Definition keeps {S : Type} (P : S -> Prop) {A : Type} (m : Comp S A)
    : Prop :=
  forall s, P s -> P (fst (m s)).

Definition isDoQuery (e : API.Event) : bool :=
  match e with API.CalledDoQuery _ => true | _ => false end.

(** No call of the adapter's [doQuery] so far. *)
Definition NoDoQuery (s : API.PipelineState) : Prop :=
  Forall (fun e => isDoQuery e = false) (API.events s).

(** The local [contentType] of [handle] holds the given value. *)
Definition HasContentType (c : option string) (s : API.PipelineState)
    : Prop :=
  API.contentType s = c.

(** The media type that the first three stages negotiate, if they all
    complete. *)
Definition negotiated (E : Steps) (request : Request) : option string :=
  match checkMethod E request, checkBodyExistence E request,
        negotiateContentType E (Request.accepts request)
          ["application/vnd.api+json"] with
  | Returned _, Returned _, Returned mediaType => Some mediaType
  | _, _, _ => None
  end.

(** The primary data that stands for an empty resolution of a label: an
    empty collection for an array, [null] otherwise. *)
Definition emptyPrimary (resolved : IdOrIds) : Primary :=
  match resolved with
  | IdMany _ => PrimaryCollection []
  | _ => PrimaryNull
  end.

(** Any value but [null] and [undefined], or an array of such values, can
    be logged. *)
Definition Loggable (err : JSValue) : Prop :=
  Forall (fun v => isNullish v = false) (API.toErrorArray err).

(** A promise rejected with the given value. *)
Definition RejectedWith (e : JSValue) (p : Strategy.Promise Request) : Prop :=
  p = Strategy.Rejected e.

(** A promise that, when fulfilled, holds a request of the given method. *)
Definition FulfilledAs (m : string) (p : Strategy.Promise Request) : Prop :=
  forall it, p = Strategy.Fulfilled it -> Request.method it = m.

(** Whether the override is the one that tunneling admits. *)
Definition admitted (config : Strategy.HTTPStrategyOptions)
    (req : Strategy.IncomingMessage) (override : string) : bool :=
  bool_decide (Strategy.tunnel config = Some true)
  && String.eqb (toLowerCase (Strategy.method req)) "post"
  && String.eqb (toLowerCase override) "patch".

(** Whether a key is one of Mongo's junction operators. *)
Definition isJunction (key : string) : bool :=
  String.eqb key "$and" || String.eqb key "$or".

Definition emptyArray (value : JSON) : bool :=
  match value with JArr [] => true | _ => false end.

(** No [$and] or [$or] over an empty array, under any key and in any
    array, at any depth of a JSON value: Mongo refuses such a junction. *)
Fixpoint noEmptyJunction (criteria : JSON) : bool :=
  match criteria with
  | JArr items => forallb noEmptyJunction items
  | JObj members =>
      forallb
        (fun '(key, value) =>
           negb (isJunction key && emptyArray value)
           && noEmptyJunction value)
        members
  | _ => true
  end.

(** Every FieldConstraint of the filter is on a field that is not named
    like a junction operator, has an operator other than [and] and [or]
    (those tag a Predicate) and a value that holds no empty junction
    itself. *)
Fixpoint plainConstraints (filter : Filter) : bool :=
  match filter with
  | Predicate _ value => forallb plainConstraints value
  | FieldConstraint field operator value =>
      negb (isJunction field)
      && negb (String.eqb operator "and" || String.eqb operator "or")
      && noEmptyJunction value
  end.

(** What the strategy settles once for a request: everything but the
    method, the content type and the body. *)
Definition route (r : Request)
    : QueryParams * option string * bool * IdOrIds * string * bool
      * option string * string * option string :=
  (Request.queryParams r, Request.rawQueryString r, Request.allowLabel r,
   Request.idOrIds r, Request.type r, Request.aboutRelationship r,
   Request.relationship r, Request.uri r, Request.accepts r).

(** The value thrown by the first of the three opening stages of [handle]
    that fails, if one does. *)
Definition earlyFailure (E : Steps) (request : Request) : option JSValue :=
  match checkMethod E request with
  | Threw err => Some err
  | Returned _ =>
      match checkBodyExistence E request with
      | Threw err => Some err
      | Returned _ =>
          match negotiateContentType E (Request.accepts request)
                  ["application/vnd.api+json"] with
          | Threw err => Some err
          | Returned _ => None
          end
      end
  end.

Definition isLogged (e : API.Event) : bool :=
  match e with API.Logged _ => true | _ => false end.

Definition isBuiltQuery (e : API.Event) : bool :=
  match e with API.BuiltQuery _ => true | _ => false end.



(** A promise that, when fulfilled, holds a request with the given
    property. *)
Definition FulfilledWith (Q : Request -> Prop) (p : Strategy.Promise Request)
    : Prop :=
  forall it, p = Strategy.Fulfilled it -> Q it.

(** [charset || "utf8"] for the parameters of a parsed media type. *)
Definition charsetOf (typeParsed : Strategy.ParsedMediaType) : string :=
  match Strategy.parameters typeParsed !! "charset" with
  | Some charset => if truthyString charset then charset else "utf8"
  | None => "utf8"
  end.

(** The steps with other validators and parsers for the body. *)
Definition withBodySteps (E : Steps)
    (validateContentType' : Request -> list string -> Outcome unit)
    (validateRequestDocument' : option JSON -> Outcome unit)
    (parseRequestPrimary' : option JSON -> bool -> Outcome (option Primary))
    (validateRequestResources' :
       string -> option Primary -> Registry -> Outcome unit)
    : Steps :=
  {| checkMethod := checkMethod E;
     checkBodyExistence := checkBodyExistence E;
     negotiateContentType := negotiateContentType E;
     validateContentType := validateContentType';
     labelToIds := labelToIds E;
     parseRequestPrimary := parseRequestPrimary';
     validateRequestDocument := validateRequestDocument';
     validateRequestResources := validateRequestResources';
     parseQueryParams := parseQueryParams E;
     applyTransform := applyTransform E;
     makeGET := makeGET E;
     makePOST := makePOST E;
     makePATCH := makePATCH E;
     makeDELETE := makeDELETE E;
     fromError := fromError E;
     toString := toString E |}.

(** The headers of a response whose Result overrides none. *)
Definition defaultHeaders (mediaType : string) : gmap string string :=
  {[ "content-type" := mediaType; "vary" := "Accept" ]}.

(** [negotiatedMediaType || "application/vnd.api+json"] *)
Definition mediaTypeOr (negotiated : option string) : string :=
  match negotiated with
  | Some mediaType =>
      if truthyString mediaType then mediaType
      else "application/vnd.api+json"
  | None => "application/vnd.api+json"
  end.

(** The checks of [handle] that come before the construction of a query
    and do not read the body: method, body existence, content negotiation,
    the registered adapter, the label mapper where the request holds a
    label, and the two parsers of the query parameters. *)
Definition checksPassed (E : Steps) (this : API.APIController)
    (request : Request) (frameworkReq : FrameworkObject) : Prop :=
  checkMethod E request = Returned tt
  /\ checkBodyExistence E request = Returned tt
  /\ (exists mediaType,
        negotiateContentType E (Request.accepts request)
          ["application/vnd.api+json"]
        = Returned mediaType)
  /\ (truthyIds (Request.idOrIds request) && Request.allowLabel request
      = true ->
      exists ids,
        labelToIds E (Request.type request) (Request.idOrIds request)
          (API.registry this) frameworkReq
        = Returned ids)
  /\ (exists parsed,
        parseQueryParams E (Request.queryParams request) = Returned parsed)
  /\ (exists adapter filter,
        Registry.dbAdapter (API.registry this) (Request.type request)
        = Some adapter
        /\ API.filterParamParser this
             (Adapter.unaryFilterOperators adapter)
             (Adapter.binaryFilterOperators adapter)
             (Request.rawQueryString request) (Request.queryParams request)
           = Returned filter).

(** * Properties *)

(** ** Criteria translation *)

Section Criteria.

Import Mongoose.

Example toMongoCriteria_nested :
  toMongoCriteria
    (Predicate Or
       [FieldConstraint "id" "eq" (JStr "1");
        Predicate And [];
        FieldConstraint "age" "neq" (JNum 3)])
  = JObj [("$or",
           JArr [JObj [("_id", JStr "1")];
                 JObj [];
                 JObj [("age", JObj [("$ne", JNum 3)])]])].
Proof. reflexivity. Qed.

(** Only an [and]/[or] with no constituents translates to the empty
    criteria object. *)
Lemma toMongoCriteria_empty_inv (c : Filter) :
  toMongoCriteria c = JObj [] -> exists op, c = Predicate op [].
Proof.
  destruct c as [op value | field operator value]; simpl.
  - destruct value as [| c cs]; simpl; [eauto | discriminate].
  - destruct (String.eqb operator "eq"); discriminate.
Qed.

(** C4: an [and] or [or] Predicate whose value sequence is empty
    translates to the empty criteria object [{}], the filter that
    constrains nothing. *)
Theorem toMongoCriteria_empty_predicate (op : PredicateOperator) :
  toMongoCriteria (Predicate op []) = JObj [].
Proof. destruct op; reflexivity. Qed.

Lemma mongoOperator_neq : mongoOperator "neq" = "$ne".
Proof. reflexivity. Qed.

Lemma mongoOperator_other (operator : string) :
  operator <> "neq" -> mongoOperator operator = "$" ++ operator.
Proof.
  intros Hne. unfold mongoOperator.
  destruct (String.eqb_spec operator "neq"); [contradiction | reflexivity].
Qed.

Lemma mongoField_id : mongoField "id" = "_id".
Proof. reflexivity. Qed.

Lemma mongoField_other (field : string) :
  field <> "id" -> mongoField field = field.
Proof.
  intros Hne. unfold mongoField.
  destruct (String.eqb_spec field "id"); [contradiction | reflexivity].
Qed.

(** C5: for a FieldConstraint, [eq] becomes the direct assignment
    [{field: value}], [neq] becomes [{field: {$ne: value}}], every other
    operator [op] becomes [{field: {$op: value}}] ([and] and [or] are no
    operators of a FieldConstraint: they tag a Predicate), and in each case
    the reserved field name [id] is replaced by [_id] while any other field
    name is kept. *)
Theorem toMongoCriteria_field_constraint
    (field operator : string) (value : JSON) :
  let target := if decide (field = "id") then "_id" else field in
  (operator = "eq" ->
     toMongoCriteria (FieldConstraint field operator value)
     = JObj [(target, value)])
  /\ (operator = "neq" ->
     toMongoCriteria (FieldConstraint field operator value)
     = JObj [(target, JObj [("$ne", value)])])
  /\ (operator <> "eq" -> operator <> "neq" ->
      operator <> "and" -> operator <> "or" ->
     toMongoCriteria (FieldConstraint field operator value)
     = JObj [(target, JObj [("$" ++ operator, value)])]).
Proof.
  intros target.
  assert (Hfield : mongoField field = target).
  { subst target. destruct (decide (field = "id")) as [-> | Hne].
    - apply mongoField_id.
    - now apply mongoField_other. }
  repeat split.
  - intros ->. simpl. now rewrite Hfield.
  - intros ->. simpl. now rewrite Hfield.
  - intros Heq Hneq _ _. simpl.
    destruct (String.eqb_spec operator "eq"); [contradiction |].
    now rewrite Hfield, mongoOperator_other.
Qed.

Lemma toMongoCriteria_field_constraint_witness :
  toMongoCriteria (FieldConstraint "id" "eq" (JNum 7))
  = JObj [("_id", JNum 7)]
  /\ toMongoCriteria (FieldConstraint "name" "neq" (JStr "x"))
     = JObj [("name", JObj [("$ne", JStr "x")])]
  /\ toMongoCriteria (FieldConstraint "age" "gte" (JNum 18))
     = JObj [("age", JObj [("$gte", JNum 18)])].
Proof.
  split; [| split].
  - apply (proj1 (toMongoCriteria_field_constraint "id" "eq" (JNum 7))).
    reflexivity.
  - apply (proj1 (proj2
      (toMongoCriteria_field_constraint "name" "neq" (JStr "x")))).
    reflexivity.
  - apply (proj2 (proj2
      (toMongoCriteria_field_constraint "age" "gte" (JNum 18))));
      discriminate.
Defined.

End Criteria.

(** ** Results and responses *)

Section Responses.

Import API.

Variable toString : Document -> string.

(** The guard [if(response.status)] is a truthiness test: the number [0]
    falls through like an absent status. *)
Lemma resultToHTTPResponse_status_zero (document : option Document)
    (headers : option (gmap string string)) (negotiated : option string) :
  HTTPResponse.status
    (resultToHTTPResponse toString (Result.mk document (Some 0) headers)
       negotiated)
  = HTTPResponse.status
      (resultToHTTPResponse toString (Result.mk document None headers)
         negotiated).
Proof. reflexivity. Qed.

(** A Document whose errors array is empty has no first error: the status
    is [undefined]. *)
Lemma resultToHTTPResponse_status_no_error (document : Document)
    (headers : option (gmap string string)) (negotiated : option string) :
  Document.errors document = Some [] ->
  HTTPResponse.status
    (resultToHTTPResponse toString (Result.mk (Some document) None headers)
       negotiated)
  = None.
Proof. unfold resultToHTTPResponse; simpl. now intros ->. Qed.

(** C2, as the code has it, for every Result: the status of the response
    is the Result's explicit status when that is set and is not [0];
    otherwise, the explicit status being absent or [0], it is the status
    of the first error when the Result has a Document with an errors
    array, and no status at all when that array is empty; otherwise [200]
    when it has a Document without errors array; otherwise [204] when it
    has no Document. *)
Theorem resultToHTTPResponse_status (response : Result)
    (negotiated : option string) :
  let status :=
    HTTPResponse.status (resultToHTTPResponse toString response negotiated) in
  (forall s, Result.status response = Some s -> s <> 0 -> status = Some s)
  /\ (Result.status response = None \/ Result.status response = Some 0 ->
      (forall document errors,
          Result.document response = Some document ->
          Document.errors document = Some errors ->
          status = match errors with
                   | e :: _ => Some (APIError.status e)
                   | [] => None
                   end)
      /\ (forall document,
          Result.document response = Some document ->
          Document.errors document = None ->
          status = Some 200)
      /\ (Result.document response = None -> status = Some 204)).
Proof.
  unfold resultToHTTPResponse; simpl. split.
  - intros s Hs Hnz. rewrite Hs. simpl.
    destruct (Z.eqb_spec s 0); [contradiction | reflexivity].
  - intros Hunset.
    assert (Hfalsy : truthyOptNumber (Result.status response) = false)
      by (destruct Hunset as [-> | ->]; reflexivity).
    rewrite Hfalsy. repeat split.
    + intros document errors -> ->. now destruct errors.
    + intros document -> ->. reflexivity.
    + intros ->. reflexivity.
Qed.

(** The headers of a response are the Result's overrides laid over the
    two defaults. *)
Lemma resultToHTTPResponse_headers (response : Result)
    (negotiated : option string) (key : string) :
  HTTPResponse.headers (resultToHTTPResponse toString response negotiated)
    !! key
  = match default ∅ (Result.headers response) !! key with
    | Some value => Some value
    | None =>
        if decide (key = "vary") then Some "Accept"
        else if decide (key = "content-type")
        then Some (if truthyOptString negotiated
                   then default "" negotiated
                   else "application/vnd.api+json")
        else None
    end.
Proof.
  unfold resultToHTTPResponse; simpl.
  rewrite lookup_union.
  destruct (default ∅ (Result.headers response) !! key) as [value |] eqn:Hk.
  - match goal with |- Some _ ∪ ?o = _ => destruct o; reflexivity end.
  - rewrite (left_id None _).
    destruct (decide (key = "vary")) as [-> | Hvary]; [reflexivity |].
    destruct (decide (key = "content-type")) as [-> | Hct].
    + rewrite lookup_insert_eq. f_equal. unfold orElse.
      now destruct negotiated as [[| c r] |].
    + rewrite lookup_insert_ne by congruence.
      now rewrite lookup_singleton_ne by congruence.
Qed.

End Responses.

Lemma resultToHTTPResponse_status_witness :
  let serialize := fun _ : Document => "{}" in
  let error := newAPIError 404 None "Not found." in
  let failed :=
    Document.mk None None None None (Some [error; newAPIError 400 None ""]) in
  let fetched :=
    Document.mk None None (Some (PrimaryCollection [])) None None in
  HTTPResponse.status
    (API.resultToHTTPResponse serialize
       (Result.mk (Some failed) (Some 409) None) None) = Some 409
  /\ HTTPResponse.status
       (API.resultToHTTPResponse serialize
          (Result.mk (Some failed) None None) None) = Some 404
  /\ HTTPResponse.status
       (API.resultToHTTPResponse serialize
          (Result.mk (Some fetched) None None) None) = Some 200
  /\ HTTPResponse.status
       (API.resultToHTTPResponse serialize (Result.mk None None None) None)
     = Some 204.
Proof.
  intros serialize error failed fetched. split; [| split; [| split]].
  - apply (proj1 (resultToHTTPResponse_status serialize
                    (Result.mk (Some failed) (Some 409) None) None) 409);
      [reflexivity | lia].
  - apply (proj1 (proj2 (resultToHTTPResponse_status serialize
                    (Result.mk (Some failed) None None) None)
                    (or_introl eq_refl))
             failed [error; newAPIError 400 None ""]); reflexivity.
  - apply (proj1 (proj2 (proj2 (resultToHTTPResponse_status serialize
                    (Result.mk (Some fetched) None None) None)
                    (or_introl eq_refl)))
             fetched); reflexivity.
  - apply (proj2 (proj2 (proj2 (resultToHTTPResponse_status serialize
                    (Result.mk None None None) None)
                    (or_introl eq_refl))));
      reflexivity.
Defined.

(** C2 fails on the Result made from an empty array of errors, as the
    Mongoose [errorHandler] throws one for an empty [errors] collection:
    its Document has errors but no first error, and the response has no
    status at all, none of the four that the claim lists.  It fails too on
    a Result whose explicit status is [0]: that status is set, and the
    response has another. *)
Lemma resultToHTTPResponse_status_absent :
  let serialize := fun _ : Document => "{}" in
  let failed :=
    API.makeResultFromErrors Examples.fromErrorModel (newDocument None None)
      (JSArray []) in
  (Document.errors <$> Result.document failed = Some (Some [])
   /\ Result.status failed = None
   /\ HTTPResponse.status (API.resultToHTTPResponse serialize failed None)
      = None)
  /\ HTTPResponse.status
       (API.resultToHTTPResponse serialize (Result.mk None (Some 0) None)
          None)
     = Some 204.
Proof. intros serialize failed. repeat split. Qed.

(** ** Normalization of errors *)

Section Errors.

Import API.

Variable fromError : JSValue -> APIError.
Variables invalidFieldValue uniqueViolation : ErrorOpts -> APIError.

Lemma toErrorArray_single (errors : JSValue) :
  isArray errors = false -> toErrorArray errors = [errors].
Proof. destruct errors; simpl; congruence. Qed.

(** The errors of the Document that the controller makes from a failure
    value. *)
Lemma makeResultFromErrors_errors (registry : Registry) (request : Request)
    (errors : JSValue) :
  Document.errors
    <$> Result.document
          (makeResultFromErrors fromError (makeDocFor registry request)
             errors)
  = Some (Some (map fromError (toErrorArray errors))).
Proof. reflexivity. Qed.

(** C6, as the code has it: the errors of the Document made from a
    failure value are an array holding the from-error coercion of the
    value itself when it is not an array, and of each element, in order,
    when it is one; so the array is as long as the one given, and empty
    when that one is.  The Mongoose [errorHandler] always throws an
    array, and for a [MongoError] with code [11000] that carries no
    [errors] collection this array holds the unique-violation error made
    from it. *)
Theorem errors_normalized_to_array (registry : Registry) (request : Request)
    (errors : JSValue) (err : ErrorObject) :
  let made :=
    Document.errors
      <$> Result.document
            (makeResultFromErrors fromError (makeDocFor registry request)
               errors) in
  (isArray errors = false -> made = Some (Some [fromError errors]))
  /\ (forall items,
        errors = JSArray items ->
        made = Some (Some (map fromError items))
        /\ (items <> [] -> map fromError items <> []))
  /\ (exists thrown,
        Mongoose.errorHandler invalidFieldValue uniqueViolation fromError err
        = Threw (JSArray thrown))
  /\ (ErrorObject.name err = "MongoError" ->
      ErrorObject.code err = Some 11000 ->
      ErrorObject.errors err = None ->
      Mongoose.errorHandler invalidFieldValue uniqueViolation fromError err
      = Threw (JSArray
          [JSAPIError (uniqueViolation
             {| ErrorOpts.detail := None;
                ErrorOpts.rawError := Some err;
                ErrorOpts.code := Some 11000 |})])).
Proof.
  intros made. subst made. rewrite makeResultFromErrors_errors.
  split; [| split; [| split]].
  - intros Hsingle. now rewrite toErrorArray_single.
  - intros items ->. split; [reflexivity |].
    destruct items; [congruence | discriminate].
  - unfold Mongoose.errorHandler. eauto.
  - intros Hname Hcode Hnone. unfold Mongoose.errorHandler.
    rewrite Hname, Hcode, Hnone. reflexivity.
Qed.

End Errors.

Lemma errors_normalized_to_array_witness :
  let registry := Examples.registry in
  let request := Examples.get "people" IdUndefined false in
  let makeDoc := API.makeDocFor registry request in
  let timeout := JSErrorObj (ErrorObject.mk "Error" "timed out" None None) in
  let missing := JSAPIError (newAPIError 404 None "Not found.") in
  Document.errors
    <$> Result.document
          (API.makeResultFromErrors Examples.fromErrorModel makeDoc timeout)
  = Some (Some [Examples.fromErrorModel timeout])
  /\ Document.errors
       <$> Result.document
             (API.makeResultFromErrors Examples.fromErrorModel makeDoc
                (JSArray [missing; timeout]))
     = Some (Some [newAPIError 404 None "Not found.";
                   Examples.fromErrorModel timeout])
  /\ Mongoose.errorHandler Examples.invalidFieldValue Examples.uniqueViolation
       Examples.fromErrorModel Examples.duplicateKey
     = Threw (JSArray
         [JSAPIError (Examples.uniqueViolation
            (ErrorOpts.mk None (Some Examples.duplicateKey) (Some 11000)))]).
Proof.
  intros registry request makeDoc timeout missing.
  pose proof (errors_normalized_to_array Examples.fromErrorModel
                Examples.invalidFieldValue Examples.uniqueViolation
                registry request timeout Examples.duplicateKey) as Hsingle.
  pose proof (errors_normalized_to_array Examples.fromErrorModel
                Examples.invalidFieldValue Examples.uniqueViolation
                registry request (JSArray [missing; timeout])
                Examples.duplicateKey) as Harray.
  split; [| split].
  - apply (proj1 Hsingle). reflexivity.
  - apply (proj1 (proj2 Harray) [missing; timeout]). reflexivity.
  - apply (proj2 (proj2 (proj2 Hsingle))); reflexivity.
Defined.

(** An empty array of errors reaches the conversion when the Mongoose
    [errorHandler] is given a validation error whose [errors] collection
    has no keys: the array it throws is empty, and so is the errors array
    of the Document made from it. *)
Lemma errors_array_can_be_empty :
  Mongoose.errorHandler Examples.invalidFieldValue Examples.uniqueViolation
    Examples.fromErrorModel Examples.emptyValidationError
  = Threw (JSArray [])
  /\ Document.errors
       <$> Result.document
             (API.makeResultFromErrors Examples.fromErrorModel
                (API.makeDocFor Examples.registry
                   (Examples.get "people" IdUndefined false))
                (JSArray []))
     = Some (Some []).
Proof. split; reflexivity. Qed.

(** ** Reasoning about computations *)

Section Computations.

Context {S : Type}.

Lemma keeps_ret (P : S -> Prop) {A : Type} (a : A) : keeps P (ret a).
Proof. intros s Hs. exact Hs. Qed.

Lemma keeps_throw (P : S -> Prop) {A : Type} (e : JSValue) :
  keeps P (@throw S A e).
Proof. intros s Hs. exact Hs. Qed.

Lemma keeps_await (P : S -> Prop) {A : Type} (o : Outcome A) :
  keeps P (await o).
Proof. intros s Hs. exact Hs. Qed.

Lemma keeps_modify (P : S -> Prop) (f : S -> S) :
  (forall s, P s -> P (f s)) -> keeps P (modify f).
Proof. intros Hf s Hs. now apply Hf. Qed.

Lemma keeps_bind_returned (P : S -> Prop) {A B : Type} (m : Comp S A)
    (k : A -> Comp S B) :
  keeps P m ->
  (forall s s' a, m s = (s', Returned a) -> keeps P (k a)) ->
  keeps P (bind m k).
Proof.
  intros Hm Hk s Hs. unfold bind.
  specialize (Hm s Hs).
  destruct (m s) as [s' [a | e]] eqn:Hrun; simpl in *.
  - now apply (Hk s s' a Hrun).
  - exact Hm.
Qed.

Lemma keeps_bind (P : S -> Prop) {A B : Type} (m : Comp S A)
    (k : A -> Comp S B) :
  keeps P m -> (forall a, keeps P (k a)) -> keeps P (bind m k).
Proof. intros Hm Hk. apply keeps_bind_returned; auto. Qed.

Lemma keeps_tryCatch (P : S -> Prop) {A : Type} (m : Comp S A)
    (h : JSValue -> Comp S A) :
  keeps P m -> (forall e, keeps P (h e)) -> keeps P (tryCatch m h).
Proof.
  intros Hm Hh s Hs. unfold tryCatch.
  specialize (Hm s Hs).
  destruct (m s) as [s' [a | e]]; simpl in *.
  - exact Hm.
  - now apply Hh.
Qed.

(** Inversion of a [bind] that returned. *)
Lemma bind_returned {A B : Type} (m : Comp S A) (k : A -> Comp S B)
    (s s' : S) (b : B) :
  bind m k s = (s', Returned b) ->
  exists s1 a, m s = (s1, Returned a) /\ k a s1 = (s', Returned b).
Proof.
  unfold bind. destruct (m s) as [s1 [a | e]]; [eauto | discriminate].
Qed.

Lemma await_returned {A : Type} (o : Outcome A) (s s' : S) (a : A) :
  await o s = (s', Returned a) -> o = Returned a /\ s' = s.
Proof. unfold await. intros [= -> ->]. auto. Qed.

Lemma ret_returned {A : Type} (a b : A) (s s' : S) :
  ret a s = (s', Returned b) -> a = b /\ s' = s.
Proof. unfold ret. intros [= -> ->]. auto. Qed.

End Computations.

(** Steps through a computation, splitting on every branch it takes. *)
Ltac keeps_step :=
  first
    [ apply keeps_ret
    | apply keeps_throw
    | apply keeps_await
    | apply keeps_bind; [| intros ?]
    | match goal with
      | |- keeps _ (if ?b then _ else _) => destruct b
      | |- keeps _ (match ?x with _ => _ end) => destruct x
      end ].

(** ** The calls made by the pipeline *)

Section Calls.

Import API.

Variable E : Steps.
Variable this : APIController.
Variable request : Request.
Variables frameworkReq frameworkRes : FrameworkObject.
Variable queryTransform : option (Query -> Outcome Query).

Lemma keeps_NoDoQuery_logEvent (e : Event) :
  isDoQuery e = false -> keeps NoDoQuery (logEvent e).
Proof.
  intros He. apply keeps_modify. intros s Hs. unfold NoDoQuery in *; simpl.
  apply Forall_app. split; [exact Hs | now constructor].
Qed.

Lemma keeps_NoDoQuery_setNegotiated (c : string) :
  keeps NoDoQuery (modify (setNegotiated c)).
Proof. apply keeps_modify. intros s Hs. exact Hs. Qed.

Ltac calls_step :=
  first
    [ keeps_step
    | apply keeps_NoDoQuery_setNegotiated
    | apply keeps_NoDoQuery_logEvent; reflexivity ].

Lemma prepare_NoDoQuery :
  keeps NoDoQuery
    (prepare E this request frameworkReq frameworkRes queryTransform).
Proof. unfold prepare. cbv zeta. repeat calls_step. Qed.

Lemma render_NoDoQuery (extras : Extras) (jsonAPIResult : Result) :
  keeps NoDoQuery (render E extras jsonAPIResult).
Proof. unfold render. repeat calls_step. Qed.

Lemma logErrors_NoDoQuery (errorsArr : list JSValue) :
  keeps NoDoQuery (logErrors errorsArr).
Proof.
  induction errorsArr as [| err rest IH]; simpl.
  - apply keeps_ret.
  - repeat calls_step. exact IH.
Qed.

Lemma catchBlock_NoDoQuery (makeDoc : DocumentData -> Document)
    (err : JSValue) :
  keeps NoDoQuery (catchBlock E makeDoc err).
Proof.
  unfold catchBlock. apply keeps_bind; [apply keeps_await | intros result].
  apply keeps_bind.
  - apply logErrors_NoDoQuery.
  - intros _. apply keeps_ret.
Qed.

End Calls.

(** ** Label resolution *)

Lemma modify_returned {S : Type} (f : S -> S) (s s' : S) (u : unit) :
  modify f s = (s', Returned u) -> s' = f s.
Proof. unfold modify. now intros [= <-]. Qed.

(** Follows a computation that returned through its binds and branches. *)
Ltac comp_inv :=
  repeat match goal with
  | H : bind _ _ _ = (_, Returned _) |- _ =>
      apply bind_returned in H; destruct H as (? & ? & ? & H)
  | H : await _ _ = (_, Returned _) |- _ =>
      apply await_returned in H; destruct H as [? ?]; subst
  | H : ret _ _ = (_, Returned _) |- _ =>
      apply ret_returned in H; destruct H as [? ?]; subst
  | H : modify _ _ = (_, Returned _) |- _ =>
      apply modify_returned in H; subst
  | H : throw _ _ = (_, Returned _) |- _ => discriminate H
  | H : (if ?b then _ else _) _ = (_, Returned _) |- _ => destruct b eqn:?
  | H : (match ?x with _ => _ end) _ = (_, Returned _) |- _ =>
      destruct x eqn:?
  end.

Section Labels.

Import API.

Variable E : Steps.
Variable this : APIController.
Variable request : Request.
Variables frameworkReq frameworkRes : FrameworkObject.
Variable queryTransform : option (Query -> Outcome Query).

(** What [prepare] hands over about the label: whether the identifier slot
    held a label, and what the label mapper resolved it to. *)
Lemma prepare_label (s s' : PipelineState) (p : Prepared) :
  prepare E this request frameworkReq frameworkRes queryTransform s
  = (s', Returned p) ->
  supportsLabelMapping p
  = truthyIds (Request.idOrIds request) && Request.allowLabel request
  /\ (supportsLabelMapping p = true ->
      labelToIds E (Request.type request) (Request.idOrIds request)
        (registry this) frameworkReq
      = Returned (mappedLabel p)).
Proof.
  unfold prepare, logEvent. cbv zeta. intros H.
  comp_inv; simpl; split; congruence.
Qed.

(** When the label mapped to nothing, the dispatch returns the known result
    and leaves the adapter alone. *)
Lemma dispatch_mapped_to_nothing (makeDoc : DocumentData -> Document)
    (p : Prepared) :
  supportsLabelMapping p = true ->
  mappedToNothing (mappedLabel p) = true ->
  dispatch E makeDoc p
  = ret {| Result.document :=
             Some (makeDoc
               {| DocumentData.primary :=
                    Some (if truthyIds (mappedLabel p)
                          then PrimaryCollection []
                          else PrimaryNull);
                  DocumentData.included := None;
                  DocumentData.errors := None |});
           Result.status := None;
           Result.headers := None |}.
Proof. intros Hs Hm. unfold dispatch. now rewrite Hs, Hm. Qed.

Lemma handle_state :
  fst (handle E this request frameworkReq frameworkRes queryTransform)
  = fst (settle E this request frameworkReq frameworkRes queryTransform
           initialState).
Proof.
  unfold handle, bind.
  now destruct (settle _ _ _ _ _ _ initialState) as [s [r | e]].
Qed.

Hypothesis holdsLabel :
  truthyIds (Request.idOrIds request) = true
  /\ Request.allowLabel request = true.

Variable resolved : IdOrIds.

Hypothesis resolves :
  labelToIds E (Request.type request) (Request.idOrIds request)
    (registry this) frameworkReq
  = Returned resolved.

Hypothesis nothing :
  resolved = IdUndefined \/ resolved = IdNull \/ resolved = IdMany [].

Lemma prepared_label (s s' : PipelineState) (p : Prepared) :
  prepare E this request frameworkReq frameworkRes queryTransform s
  = (s', Returned p) ->
  supportsLabelMapping p = true /\ mappedLabel p = resolved.
Proof.
  intros Hp. apply prepare_label in Hp. destruct Hp as [Hs Hm].
  destruct holdsLabel as [Hid Hallow].
  rewrite Hid, Hallow in Hs. simpl in Hs. split; [exact Hs |].
  specialize (Hm Hs). rewrite resolves in Hm. congruence.
Qed.

Lemma resolved_nothing :
  mappedToNothing resolved = true
  /\ (if truthyIds resolved then PrimaryCollection [] else PrimaryNull)
     = emptyPrimary resolved.
Proof.
  unfold emptyPrimary.
  destruct nothing as [-> | [-> | ->]]; split; reflexivity.
Qed.

Lemma tryBlock_NoDoQuery :
  keeps NoDoQuery
    (tryBlock E this request frameworkReq frameworkRes queryTransform).
Proof.
  unfold tryBlock. apply keeps_bind_returned.
  - apply prepare_NoDoQuery.
  - intros s s' p Hp. apply prepared_label in Hp. destruct Hp as [Hs Hm].
    rewrite dispatch_mapped_to_nothing
      by (first [exact Hs | rewrite Hm; apply resolved_nothing]).
    apply keeps_bind; [apply keeps_ret |].
    intros r. apply render_NoDoQuery.
Qed.

(** C3, as the code has it: when the identifier slot of a request holds a
    label (label usage allowed, slot not empty) that resolves to nothing
    ([undefined], [null] or an empty array of ids), [handle] never calls
    the adapter's [doQuery], whatever the other stages do; and when the
    stages that still run after the resolution (adapter lookup, parameter
    and filter parsing, body validation, [beforeSave], query construction)
    succeed, the Result assigned is a success Result, without status or
    errors, whose primary data is an empty collection for an empty array
    and [null] otherwise; it then passes through the [beforeRender]
    transforms, and if these succeed too the response has status [200] and
    carries what the transform made of that primary data. *)
Theorem label_mapped_to_nothing :
  (forall query,
      ~ In (CalledDoQuery query)
          (events (fst (handle E this request frameworkReq frameworkRes
                          queryTransform))))
  /\ (forall s s' p,
        prepare E this request frameworkReq frameworkRes queryTransform s
        = (s', Returned p) ->
        dispatch E (makeDocFor (registry this) request) p s'
        = (s', Returned
             {| Result.document :=
                  Some (makeDocFor (registry this) request
                    {| DocumentData.primary := Some (emptyPrimary resolved);
                       DocumentData.included := None;
                       DocumentData.errors := None |});
                Result.status := None;
                Result.headers := None |}))
  /\ (forall s result,
        tryBlock E this request frameworkReq frameworkRes queryTransform
          initialState
        = (s, Returned result) ->
        exists document extras response,
          Result.document result = Some document
          /\ Result.status result = None
          /\ Document.errors document = None
          /\ applyTransform E (Some (emptyPrimary resolved)) beforeRender
               extras
             = Returned (Document.primary document)
          /\ snd (handle E this request frameworkReq frameworkRes
                    queryTransform)
             = Returned response
          /\ HTTPResponse.status response = Some 200).
Proof.
  assert (Hdispatch : forall s s' p,
    prepare E this request frameworkReq frameworkRes queryTransform s
    = (s', Returned p) ->
    dispatch E (makeDocFor (registry this) request) p
    = ret {| Result.document :=
               Some (makeDocFor (registry this) request
                 {| DocumentData.primary := Some (emptyPrimary resolved);
                    DocumentData.included := None;
                    DocumentData.errors := None |});
             Result.status := None;
             Result.headers := None |}).
  { intros s s' p Hp. apply prepared_label in Hp. destruct Hp as [Hs Hm].
    destruct resolved_nothing as [Hn Hempty].
    rewrite dispatch_mapped_to_nothing by (rewrite ?Hm; assumption).
    now rewrite Hm, Hempty. }
  split; [| split].
  - intros query Hin. rewrite handle_state in Hin.
    assert (Hkeeps : NoDoQuery
      (fst (settle E this request frameworkReq frameworkRes queryTransform
              initialState))).
    { unfold settle.
      refine (keeps_tryCatch NoDoQuery _ _ tryBlock_NoDoQuery _
                initialState _).
      - intros e. apply catchBlock_NoDoQuery.
      - constructor. }
    unfold NoDoQuery in Hkeeps. rewrite Forall_forall in Hkeeps.
    rewrite <- list_elem_of_In in Hin.
    specialize (Hkeeps _ Hin). discriminate.
  - intros s s' p Hp. now rewrite (Hdispatch s s' p Hp).
  - intros s result Htry.
    assert (Hhandle :
      handle E this request frameworkReq frameworkRes queryTransform
      = (s, Returned (resultToHTTPResponse (toString E) result
                        (contentType s)))).
    { unfold handle, settle, tryCatch, bind. now rewrite Htry. }
    unfold tryBlock in Htry.
    apply bind_returned in Htry. destruct Htry as (s1 & p & Hp & Htry).
    rewrite (Hdispatch _ _ _ Hp) in Htry.
    unfold render in Htry.
    apply bind_returned in Htry. destruct Htry as (s2 & r & Hr & Htry).
    apply ret_returned in Hr. destruct Hr as [<- ->].
    simpl in Htry. comp_inv.
    eexists _, _, _. rewrite Hhandle. simpl.
    repeat split; eauto.
Qed.

End Labels.

Lemma label_mapped_to_nothing_witness :
  let E := Examples.steps (Returned (IdMany [])) Examples.identityHook None in
  let this := Examples.controller Examples.noFilter in
  let request := Examples.get "people" (IdOne "everyone") true in
  (forall query,
      ~ In (API.CalledDoQuery query)
          (API.events (fst (API.handle E this request JNull JNull None))))
  /\ exists response,
       snd (API.handle E this request JNull JNull None) = Returned response
       /\ HTTPResponse.status response = Some 200.
Proof.
  intros E this request.
  pose proof (label_mapped_to_nothing E this request JNull JNull None
                (conj eq_refl eq_refl) (IdMany []) eq_refl
                (or_intror (or_intror eq_refl))) as (Hcalls & _ & Hresult).
  split; [exact Hcalls |].
  destruct (Hresult _ _ eq_refl)
    as (document & extras & response & _ & _ & _ & _ & Hresponse & Hstatus).
  exists response. split; assumption.
Defined.

(** A label that resolves to an empty array does not lead to a success
    Result when a stage that runs after the resolution fails: here the
    filter is rejected, and the Result carries that error instead of an
    empty collection. *)
Lemma label_mapped_to_nothing_then_failure :
  let E := Examples.steps (Returned (IdMany [])) Examples.identityHook None in
  let this := Examples.controller Examples.illegalFilter in
  let request := Examples.get "people" (IdOne "everyone") true in
  truthyIds (Request.idOrIds request) = true
  /\ Request.allowLabel request = true
  /\ labelToIds E (Request.type request) (Request.idOrIds request)
       (API.registry this) JNull
     = Returned (IdMany [])
  /\ exists s result document,
       API.settle E this request JNull JNull None API.initialState
       = (s, Returned result)
       /\ Result.document result = Some document
       /\ Document.primary document = None
       /\ Document.errors document
          = Some [newAPIError 400 None "Invalid filter."]
       /\ HTTPResponse.status
            (API.resultToHTTPResponse (toString E) result (API.contentType s))
          = Some 400.
Proof.
  intros E this request. repeat split.
  eexists _, _, _. repeat split.
Qed.

(** ** The orchestrator *)

Lemma bind_await {S A B : Type} (o : Outcome A) (k : A -> Comp S B) (s : S) :
  bind (await o) k s
  = match o with
    | Returned a => k a s
    | Threw e => (s, Threw e)
    end.
Proof. unfold bind, await. now destruct o. Qed.

Lemma bind_modify {S B : Type} (f : S -> S) (k : unit -> Comp S B) (s : S) :
  bind (modify f) k s = k tt (f s).
Proof. reflexivity. Qed.

Section Orchestrator.

Import API.

Variable E : Steps.
Variable this : APIController.
Variable request : Request.
Variables frameworkReq frameworkRes : FrameworkObject.
Variable queryTransform : option (Query -> Outcome Query).

Local Abbreviation run_handle :=
  (handle E this request frameworkReq frameworkRes queryTransform).
Local Abbreviation run_settle :=
  (settle E this request frameworkReq frameworkRes queryTransform).
Local Abbreviation run_tryBlock :=
  (tryBlock E this request frameworkReq frameworkRes queryTransform).
Local Abbreviation makeDoc := (makeDocFor (registry this) request).

Lemma keeps_contentType_logEvent (c : option string) (e : Event) :
  keeps (HasContentType c) (logEvent e).
Proof. apply keeps_modify. intros s Hs. exact Hs. Qed.

Ltac contentType_step :=
  first [ keeps_step | apply keeps_contentType_logEvent ].

Lemma prepare_contentType :
  contentType
    (fst (prepare E this request frameworkReq frameworkRes queryTransform
            initialState))
  = negotiated E request.
Proof.
  unfold prepare, negotiated. cbv zeta.
  rewrite bind_await. destruct (checkMethod E request); [| reflexivity].
  rewrite bind_await. destruct (checkBodyExistence E request); [| reflexivity].
  rewrite bind_await.
  destruct (negotiateContentType E _ _) as [mediaType |]; [| reflexivity].
  rewrite bind_modify.
  match goal with
  | |- contentType (fst (?m ?s)) = ?c =>
      enough (Hkeeps : keeps (HasContentType c) m) by exact (Hkeeps s eq_refl)
  end.
  repeat contentType_step.
Qed.

Lemma dispatch_contentType (c : option string) (p : Prepared) :
  keeps (HasContentType c) (dispatch E makeDoc p).
Proof. unfold dispatch. cbv zeta. repeat contentType_step. Qed.

Lemma render_contentType (c : option string) (extras : Extras)
    (jsonAPIResult : Result) :
  keeps (HasContentType c) (render E extras jsonAPIResult).
Proof. unfold render. repeat contentType_step. Qed.

Lemma logErrors_contentType (c : option string) (errorsArr : list JSValue) :
  keeps (HasContentType c) (logErrors errorsArr).
Proof.
  induction errorsArr as [| err rest IH]; simpl.
  - apply keeps_ret.
  - repeat contentType_step. exact IH.
Qed.

(** When [handle] is done, its local [contentType] holds the negotiated
    media type, or nothing if the negotiation never completed. *)
Lemma settle_contentType :
  contentType (fst (run_settle initialState)) = negotiated E request.
Proof.
  set (c := negotiated E request).
  assert (Hcatch : forall e, keeps (HasContentType c) (catchBlock E makeDoc e)).
  { intros e. unfold catchBlock.
    apply keeps_bind; [apply keeps_await | intros result].
    apply keeps_bind; [apply logErrors_contentType | intros _].
    apply keeps_ret. }
  pose proof prepare_contentType as Hprepare. fold c in Hprepare.
  unfold settle, tryCatch, tryBlock, bind.
  destruct (prepare _ _ _ _ _ _ initialState) as [s1 [p | e]];
    simpl in Hprepare; [| now apply Hcatch].
  pose proof (dispatch_contentType c p s1 Hprepare) as Hdispatch.
  destruct (dispatch E makeDoc p s1) as [s2 [r | e]];
    simpl in Hdispatch; [| now apply Hcatch].
  pose proof (render_contentType c
                (extrasFor (registry this) frameworkReq frameworkRes
                   (API.request p)) r s2 Hdispatch) as Hrender.
  destruct (render E _ r s2) as [s3 [r' | e]];
    simpl in Hrender; [exact Hrender | now apply Hcatch].
Qed.

(** [handle] responds exactly when the [try]/[catch] yields a Result. *)
Lemma handle_returned (s : PipelineState) (response : HTTPResponse) :
  run_handle = (s, Returned response) ->
  exists result,
    run_settle initialState = (s, Returned result)
    /\ response = resultToHTTPResponse (toString E) result (contentType s).
Proof.
  unfold handle, bind.
  destruct (run_settle initialState) as [s1 [result | e]];
    intros [= <- <-]; eauto.
Qed.

(** A plain fetch looks up the adapter, builds one query and runs it. *)
Example handle_fetch_calls :
  let E := Examples.steps (Returned IdNull) Examples.identityHook None in
  let this := Examples.controller Examples.noFilter in
  let request := Examples.get "people" (IdOne "1") false in
  map isDoQuery (events (fst (handle E this request JNull JNull None)))
  = [false; false; true]
  /\ HTTPResponse.status
       <$> match snd (handle E this request JNull JNull None) with
           | Returned response => Some response
           | Threw _ => None
           end
     = Some (Some 200).
Proof. split; reflexivity. Qed.

(** C7: when the method check, the body-existence check and the content
    negotiation of a request pass but its resource type is not in the
    registry, [handle] responds with status [404], the body being the
    Document of the single NotFound error, and the only call it makes is
    the logging of that error: no adapter is looked up, no query is built
    and [doQuery] is not called.  (The from-error coercion is taken to keep
    this APIError as it is.) *)
Theorem unregistered_type_not_found (mediaType : string) :
  let notFound :=
    newAPIError 404 None (Request.type request ++ " is not a valid type.") in
  checkMethod E request = Returned tt ->
  checkBodyExistence E request = Returned tt ->
  negotiateContentType E (Request.accepts request)
    ["application/vnd.api+json"]
  = Returned mediaType ->
  Registry.types (registry this) !! Request.type request = None ->
  fromError E (JSAPIError notFound) = notFound ->
  exists s response,
    run_handle = (s, Returned response)
    /\ HTTPResponse.status response = Some 404
    /\ HTTPResponse.body response
       = Some (toString E
           (makeDoc {| DocumentData.primary := None;
                       DocumentData.included := None;
                       DocumentData.errors := Some [notFound] |}))
    /\ events s = [Logged (JSAPIError notFound)].
Proof.
  intros notFound Hmethod Hbody Hnegotiated Hmissing Hcoerce.
  assert (Hprepare :
    prepare E this request frameworkReq frameworkRes queryTransform
      initialState
    = (setNegotiated mediaType initialState, Threw (JSAPIError notFound))).
  { unfold prepare. cbv zeta.
    rewrite bind_await, Hmethod, bind_await, Hbody.
    rewrite bind_await, Hnegotiated, bind_modify.
    unfold Registry.hasType. now rewrite Hmissing. }
  unfold handle, settle, tryCatch, tryBlock, bind.
  rewrite Hprepare. simpl.
  eexists _, _. split; [reflexivity |].
  unfold resultToHTTPResponse, makeResultFromErrors; simpl.
  rewrite Hcoerce. repeat split.
Qed.

Lemma logErrors_returns (errorsArr : list JSValue) (s : PipelineState) :
  Forall (fun v => isNullish v = false) errorsArr ->
  exists s', logErrors errorsArr s = (s', Returned tt).
Proof.
  intros Hall. revert s.
  induction Hall as [| err rest Herr _ IH]; intros s; simpl.
  - eexists. reflexivity.
  - rewrite Herr. unfold bind, logEvent, modify. apply IH.
Qed.

Lemma logErrors_throws (errorsArr : list JSValue) (s : PipelineState) :
  Exists (fun v => isNullish v = true) errorsArr ->
  exists s', logErrors errorsArr s = (s', Threw (JSErrorObj TypeError)).
Proof.
  intros Hsome. revert s.
  induction Hsome as [err rest Herr | err rest _ IH]; intros s; simpl.
  - rewrite Herr. eexists. reflexivity.
  - destruct (isNullish err).
    + eexists. reflexivity.
    + unfold bind, logEvent, modify. apply IH.
Qed.

Lemma coercible_loggable (err : JSValue) :
  Loggable err -> coercible err = true.
Proof.
  unfold Loggable, coercible. induction 1 as [| v rest Hv _ IH]; simpl.
  - reflexivity.
  - now rewrite Hv.
Qed.

Lemma coercible_nullish (err : JSValue) :
  Exists (fun v => isNullish v = true) (toErrorArray err) ->
  coercible err = false.
Proof.
  unfold coercible. induction 1 as [v rest Hv | v rest _ IH]; simpl.
  - now rewrite Hv.
  - rewrite IH. apply andb_false_r.
Qed.

(** [handle] responds whenever the [try] block returns, or throws a value
    that can be logged. *)
Lemma handle_responds :
  (forall s err, run_tryBlock initialState = (s, Threw err) -> Loggable err) ->
  exists s response, run_handle = (s, Returned response).
Proof.
  intros Hloggable. unfold handle, settle, tryCatch, bind.
  destruct (run_tryBlock initialState) as [s [result | err]] eqn:Htry.
  - eexists _, _. reflexivity.
  - unfold catchBlock, bind, await, callMakeResultFromErrors.
    rewrite (coercible_loggable _ (Hloggable s err eq_refl)).
    destruct (logErrors_returns _ s (Hloggable s err eq_refl)) as [s' ->].
    eexists _, _. reflexivity.
Qed.

(** [handle] itself rejects, with a [TypeError], when the value caught is
    [null] or [undefined], or an array holding one of them: the [catch]
    block has no error to coerce it from, nor a [stack] to read off
    it. *)
Lemma handle_rejects (s : PipelineState) (err : JSValue) :
  run_tryBlock initialState = (s, Threw err) ->
  Exists (fun v => isNullish v = true) (toErrorArray err) ->
  exists s', run_handle = (s', Threw (JSErrorObj TypeError)).
Proof.
  intros Htry Hnullish. unfold handle, settle, tryCatch, bind.
  rewrite Htry. unfold catchBlock, bind, await, callMakeResultFromErrors.
  rewrite (coercible_nullish _ Hnullish).
  eexists. reflexivity.
Qed.

(** C8, as the code has it: the headers of every response of [handle] are
    the header overrides of the Result laid over two defaults.  So the
    response has [vary: Accept] unless the Result overrides [vary], and its
    [content-type] is the negotiated media type, or the JSON:API media type
    when the negotiation never completed, unless the Result overrides
    [content-type]; a Result made from a caught failure overrides
    nothing. *)
Theorem handle_headers (s : PipelineState) (response : HTTPResponse) :
  run_handle = (s, Returned response) ->
  exists result,
    run_settle initialState = (s, Returned result)
    /\ (forall key value,
          default ∅ (Result.headers result) !! key = Some value ->
          HTTPResponse.headers response !! key = Some value)
    /\ (default ∅ (Result.headers result) !! "vary" = None ->
        HTTPResponse.headers response !! "vary" = Some "Accept")
    /\ (default ∅ (Result.headers result) !! "content-type" = None ->
        (forall mediaType,
            negotiated E request = Some mediaType -> mediaType <> "" ->
            HTTPResponse.headers response !! "content-type" = Some mediaType)
        /\ (negotiated E request = None ->
            HTTPResponse.headers response !! "content-type"
            = Some "application/vnd.api+json"))
    /\ (forall s1 err,
          run_tryBlock initialState = (s1, Threw err) ->
          Result.headers result = None).
Proof.
  intros Hhandle.
  destruct (handle_returned _ _ Hhandle) as (result & Hsettle & ->).
  pose proof settle_contentType as Hct. rewrite Hsettle in Hct. simpl in Hct.
  exists result. split; [exact Hsettle |].
  split; [| split; [| split]].
  - intros key value Hkey.
    now rewrite resultToHTTPResponse_headers, Hkey.
  - intros Hvary. now rewrite resultToHTTPResponse_headers, Hvary.
  - intros Hnone. rewrite resultToHTTPResponse_headers, Hnone, Hct. simpl.
    split.
    + intros mediaType -> Hne. simpl.
      destruct mediaType; [contradiction | reflexivity].
    + intros ->. reflexivity.
  - intros s1 err Htry. unfold settle, tryCatch in Hsettle.
    rewrite Htry in Hsettle. unfold catchBlock in Hsettle.
    apply bind_returned in Hsettle.
    destruct Hsettle as (s2 & made & Hmade & Hlogged).
    apply await_returned in Hmade. destruct Hmade as [Hmade _].
    apply bind_returned in Hlogged.
    destruct Hlogged as (s3 & u & _ & Hret).
    apply ret_returned in Hret. destruct Hret as [<- _].
    unfold callMakeResultFromErrors in Hmade.
    destruct (coercible err); [| discriminate Hmade].
    injection Hmade as <-. reflexivity.
Qed.

End Orchestrator.

Lemma unregistered_type_not_found_witness :
  let E := Examples.steps (Returned (IdMany [])) Examples.identityHook None in
  let this := Examples.controller Examples.noFilter in
  let request := Examples.get "cats" IdUndefined false in
  let notFound := newAPIError 404 None "cats is not a valid type." in
  exists s response,
    API.handle E this request JNull JNull None = (s, Returned response)
    /\ HTTPResponse.status response = Some 404
    /\ API.events s = [API.Logged (JSAPIError notFound)].
Proof.
  intros E this request notFound.
  destruct (unregistered_type_not_found E this request JNull JNull None
              "application/vnd.api+json" eq_refl eq_refl eq_refl eq_refl
              eq_refl)
    as (s & response & Hhandle & Hstatus & _ & Hevents).
  exists s, response. repeat split; assumption.
Defined.

(** C1 fails on this input: every stage succeeds until a [beforeRender]
    hook rejects with [undefined]; the [catch] block of [handle] then has
    no error to coerce the caught [undefined] from, and no [err.stack] to
    read off it, so that [handle] itself rejects with a [TypeError]
    instead of returning a response. *)
Theorem handle_rejects_on_undefined :
  let E := Examples.steps (Returned (IdOne "1")) Examples.rejectingHook None in
  let this := Examples.controller Examples.noFilter in
  let request := Examples.get "people" (IdOne "1") false in
  (exists s,
      API.tryBlock E this request JNull JNull None API.initialState
      = (s, Threw JSUndefined))
  /\ snd (API.handle E this request JNull JNull None)
     = Threw (JSErrorObj TypeError).
Proof.
  intros E this request. split.
  - eexists. reflexivity.
  - destruct (handle_rejects E this request JNull JNull None _ JSUndefined
                eq_refl) as [s' ->].
    + constructor. reflexivity.
    + reflexivity.
Qed.

Lemma handle_headers_witness :
  let E := Examples.steps (Returned (IdMany [])) Examples.identityHook None in
  let this := Examples.controller Examples.noFilter in
  let request := Examples.get "people" (IdOne "1") false in
  exists s response,
    API.handle E this request JNull JNull None = (s, Returned response)
    /\ HTTPResponse.headers response !! "vary" = Some "Accept"
    /\ HTTPResponse.headers response !! "content-type"
       = Some "application/vnd.api+json".
Proof.
  intros E this request.
  destruct (handle_headers E this request JNull JNull None _ _ eq_refl)
    as (result & Hsettle & _ & Hvary & Hct & _).
  injection Hsettle as <-.
  eexists _, _. split; [reflexivity |]. split.
  - apply Hvary. reflexivity.
  - apply (proj1 (Hct eq_refl) "application/vnd.api+json");
      [reflexivity | discriminate].
Defined.

(** The header overrides of a Result win over the defaults: a query whose
    [returning] sets [vary] and [content-type] yields a response without
    [vary: Accept] and with another content type than the negotiated
    one. *)
Lemma handle_headers_overridden :
  let overrides : gmap string string :=
    {[ "vary" := "Origin"; "content-type" := "text/plain" ]} in
  let E :=
    Examples.steps (Returned (IdMany [])) Examples.identityHook
      (Some overrides) in
  let this := Examples.controller Examples.noFilter in
  let request := Examples.get "people" (IdOne "1") false in
  negotiateContentType E (Request.accepts request)
    ["application/vnd.api+json"]
  = Returned "application/vnd.api+json"
  /\ exists s response,
       API.handle E this request JNull JNull None = (s, Returned response)
       /\ HTTPResponse.status response = Some 200
       /\ HTTPResponse.headers response !! "vary" = Some "Origin"
       /\ HTTPResponse.headers response !! "content-type" = Some "text/plain".
Proof.
  intros overrides E this request. split; [reflexivity |].
  eexists _, _. repeat split.
Qed.

(** ** Verb tunneling *)

Lemma toLowerCase_truthy (s : string) :
  truthyString (toLowerCase s) = truthyString s.
Proof. now destruct s. Qed.

Lemma truthyString_true (s : string) : s <> "" -> truthyString s = true.
Proof. destruct s; [contradiction | reflexivity]. Qed.

Section Tunneling.

Import Strategy.

Variable P : Platform.
Variable config : HTTPStrategyOptions.
Variable req : IncomingMessage.
Variables protocol fallbackHost : option string.
Variable params : Params.
Variable parsedQuery : option JSON.

Local Abbreviation built :=
  (buildRequestObject P config req protocol fallbackHost params parsedQuery).

Lemma keeps_rejected_resolve (e : JSValue) (it : Request) :
  keeps (RejectedWith e) (resolve it).
Proof. apply keeps_modify. now intros p ->. Qed.

Lemma keeps_rejected_reject (e e' : JSValue) :
  keeps (RejectedWith e) (@reject Request e').
Proof. apply keeps_modify. now intros p ->. Qed.

Lemma keeps_fulfilledAs_resolve (m : string) (it : Request) :
  Request.method it = m -> keeps (FulfilledAs m) (resolve it).
Proof.
  intros Hm. apply keeps_modify. intros p Hp it' Hit.
  destruct p; [congruence | now apply Hp | discriminate].
Qed.

Lemma keeps_fulfilledAs_reject (m : string) (e : JSValue) :
  keeps (FulfilledAs m) (@reject Request e).
Proof.
  apply keeps_modify. intros p Hp it' Hit.
  destruct p; [discriminate | now apply Hp | discriminate].
Qed.

Lemma newPromise_keeps (Q : Promise Request -> Prop)
    (executor : Comp (Promise Request) unit) :
  Q (fst (executor Pending)) ->
  (fst (executor Pending) = Pending -> forall e, Q (Rejected e)) ->
  Q (newPromise executor).
Proof.
  unfold newPromise.
  destruct (executor Pending) as [p [u | e]]; destruct p; simpl; auto.
Qed.

Lemma bind_state {S A B : Type} (m : Comp S A) (k : A -> Comp S B)
    (s s1 : S) (a : A) :
  m s = (s1, Returned a) -> fst (bind m k s) = fst (k a s1).
Proof. intros Hm. unfold bind. now rewrite Hm. Qed.

Lemma onRawBody_rejected (e : JSValue) (it : Request) (read : Outcome string) :
  keeps (RejectedWith e) (onRawBody P it read).
Proof.
  unfold onRawBody.
  repeat first
    [ keeps_step | apply keeps_rejected_resolve | apply keeps_rejected_reject ].
Qed.

Lemma onRawBody_fulfilledAs (it : Request) (read : Outcome string) :
  keeps (FulfilledAs (Request.method it)) (onRawBody P it read).
Proof.
  unfold onRawBody.
  repeat first
    [ keeps_step
    | apply keeps_fulfilledAs_resolve; reflexivity
    | apply keeps_fulfilledAs_reject ].
Qed.

Lemma readBody_rejected (e : JSValue) (it : Request) :
  keeps (RejectedWith e) (readBody P req it).
Proof.
  unfold readBody. cbv zeta.
  repeat first
    [ apply onRawBody_rejected
    | keeps_step
    | apply keeps_rejected_resolve
    | apply keeps_rejected_reject ].
Qed.

Lemma readBody_fulfilledAs (it : Request) :
  keeps (FulfilledAs (Request.method it)) (readBody P req it).
Proof.
  unfold readBody. cbv zeta.
  repeat first
    [ apply (onRawBody_fulfilledAs
               (Request.setContentType (headers req !! "content-type") it))
    | keeps_step
    | apply keeps_fulfilledAs_resolve; reflexivity
    | apply keeps_fulfilledAs_reject ].
Qed.

Variable override : string.

Hypothesis overrides : headers req !! "x-http-method-override" = Some override.

Lemma requestedMethod_override :
  override <> "" -> requestedMethod req = toLowerCase override.
Proof.
  intros Hne. unfold requestedMethod, orElse. rewrite overrides. simpl.
  now rewrite truthyString_true.
Qed.

Lemma admitted_spec :
  admitted config req override = true <->
  tunnel config = Some true
  /\ toLowerCase (method req) = "post"
  /\ toLowerCase override = "patch".
Proof.
  unfold admitted. rewrite !andb_true_iff, bool_decide_eq_true.
  now rewrite !String.eqb_eq.
Qed.

(** An override that is not admitted rejects the promise on the spot, and
    nothing the executor does afterwards changes that. *)
Lemma override_not_admitted :
  override <> "" -> admitted config req override = false ->
  built
  = Rejected (JSAPIError
      (newAPIError 400 None (tunnelMessage (toLowerCase override)))).
Proof.
  intros Hne Hadmitted.
  set (rejection := JSAPIError
         (newAPIError 400 None (tunnelMessage (toLowerCase override)))).
  assert (Htunnel :
    tunnelVerb config
      (initialRequest P config req protocol fallbackHost params parsedQuery)
      (requestedMethod req) Pending
    = (Rejected rejection,
       Returned (initialRequest P config req protocol fallbackHost params
                   parsedQuery))).
  { unfold tunnelVerb. rewrite requestedMethod_override by exact Hne.
    cbn [initialRequest Request.method].
    fold (admitted config req override). rewrite Hadmitted.
    now rewrite toLowerCase_truthy, truthyString_true by exact Hne. }
  assert (Hfinal :
    RejectedWith rejection
      (fst (buildRequestExecutor P config req protocol fallbackHost params
              parsedQuery Pending))).
  { unfold buildRequestExecutor. erewrite bind_state by exact Htunnel.
    now apply readBody_rejected. }
  unfold buildRequestObject.
  apply (newPromise_keeps (RejectedWith rejection)); [exact Hfinal |].
  intros Hpending. unfold RejectedWith in Hfinal.
  rewrite Hpending in Hfinal. discriminate Hfinal.
Qed.

(** An admitted override rewrites the method, and nothing the executor
    does afterwards changes it back. *)
Lemma override_admitted :
  admitted config req override = true ->
  FulfilledAs "patch" built
  /\ (hasBody P req = false -> exists it, built = Fulfilled it).
Proof.
  intros Hadmitted.
  assert (Hne : override <> "").
  { intros Hempty. apply admitted_spec in Hadmitted.
    destruct Hadmitted as (_ & _ & Hpatch).
    rewrite Hempty in Hpatch. discriminate Hpatch. }
  assert (Htunnel :
    tunnelVerb config
      (initialRequest P config req protocol fallbackHost params parsedQuery)
      (requestedMethod req) Pending
    = (Pending,
       Returned (Request.setMethod "patch"
         (initialRequest P config req protocol fallbackHost params
            parsedQuery)))).
  { unfold tunnelVerb. rewrite requestedMethod_override by exact Hne.
    cbn [initialRequest Request.method]. fold (admitted config req override).
    now rewrite Hadmitted. }
  split.
  - unfold buildRequestObject. apply newPromise_keeps.
    + unfold buildRequestExecutor. erewrite bind_state by exact Htunnel.
      apply (readBody_fulfilledAs (Request.setMethod "patch" _)).
      intros it Hit. discriminate Hit.
    + intros _ e it Hit. discriminate Hit.
  - intros Hnobody. unfold buildRequestObject, newPromise.
    unfold buildRequestExecutor, bind. rewrite Htunnel.
    unfold readBody. rewrite Hnobody. eexists. reflexivity.
Qed.

(** C9, as the code has it: for a request of method [post] (in any case)
    whose [x-http-method-override] header is [patch] (in any case), with
    tunneling disabled [buildRequestObject] rejects with the error
    [new APIError(400, undefined, text)] whose one text is
    [Cannot tunnel to the method "PATCH".], the method name standing in
    double quotes: an error of status 400 with that text as its title and
    without detail; with tunneling enabled, the Request it builds has the
    method [patch], and it does build one when the request has no body. *)
Theorem tunnel_post_to_patch :
  toLowerCase (method req) = "post" ->
  toLowerCase override = "patch" ->
  (tunnel config <> Some true ->
   exists e,
     built = Rejected (JSAPIError e)
     /\ e = newAPIError 400 None
              ("Cannot tunnel to the method " ++ dquote ++ "PATCH" ++ dquote
               ++ ".")
     /\ APIError.status e = 400
     /\ APIError.title e
        = Some ("Cannot tunnel to the method " ++ dquote ++ "PATCH"
                ++ dquote ++ ".")
     /\ APIError.detail e = None)
  /\ (tunnel config = Some true ->
      (forall it, built = Fulfilled it -> Request.method it = "patch")
      /\ (hasBody P req = false ->
          exists it, built = Fulfilled it /\ Request.method it = "patch")).
Proof.
  intros Hpost Hpatch.
  assert (Hne : override <> "").
  { intros Hempty. rewrite Hempty in Hpatch. discriminate Hpatch. }
  split.
  - intros Hoff. eexists. split; [| repeat split].
    rewrite override_not_admitted.
    + unfold tunnelMessage. now rewrite Hpatch.
    + exact Hne.
    + destruct (admitted config req override) eqn:Hadmitted; [| reflexivity].
      apply admitted_spec in Hadmitted. now destruct Hadmitted.
  - intros Hon.
    assert (Hadmitted : admitted config req override = true)
      by now apply admitted_spec.
    destruct (override_admitted Hadmitted) as [Hmethod Hbuilt].
    split; [exact Hmethod |].
    intros Hnobody. destruct (Hbuilt Hnobody) as [it Hit].
    exists it. split; [exact Hit | now apply Hmethod].
Qed.

(** C10: a request that carries a non-empty [x-http-method-override]
    header is rejected by [buildRequestObject] with a 400 error that names
    the requested method, unless tunneling is enabled, the method of the
    request is [post] and the override is [patch] (both compared in lower
    case); so an override to any other method, or on a request that is not
    a POST, is rejected even when tunneling is enabled. *)
Theorem override_rejected_unless_post_to_patch :
  override <> "" ->
  ~ (tunnel config = Some true
     /\ toLowerCase (method req) = "post"
     /\ toLowerCase override = "patch") ->
  exists e,
    built = Rejected (JSAPIError e)
    /\ APIError.status e = 400
    /\ APIError.title e
       = Some ("Cannot tunnel to the method " ++ dquote
               ++ toUpperCase (toLowerCase override) ++ dquote ++ ".").
Proof.
  intros Hne Hnot. eexists. split; [| split].
  - apply override_not_admitted; [exact Hne |].
    destruct (admitted config req override) eqn:Hadmitted; [| reflexivity].
    apply admitted_spec in Hadmitted. contradiction.
  - reflexivity.
  - reflexivity.
Qed.

End Tunneling.

Lemma tunnel_post_to_patch_witness :
  let built config :=
    Strategy.buildRequestObject Examples.platform config Examples.tunneled
      None (Some "example.com") Examples.params None in
  built Examples.tunnelOff
  = Strategy.Rejected (JSAPIError
      (newAPIError 400 None
         ("Cannot tunnel to the method " ++ dquote ++ "PATCH" ++ dquote
          ++ ".")))
  /\ exists it,
       built Examples.tunnelOn = Strategy.Fulfilled it
       /\ Request.method it = "patch".
Proof.
  intros built. split.
  - destruct (proj1 (tunnel_post_to_patch Examples.platform
                       Examples.tunnelOff Examples.tunneled None
                       (Some "example.com") Examples.params None "patch"
                       eq_refl eq_refl eq_refl))
      as (e & Hbuilt & He & _).
    + discriminate.
    + rewrite <- He. exact Hbuilt.
  - apply (proj2 (tunnel_post_to_patch Examples.platform Examples.tunnelOn
                    Examples.tunneled None (Some "example.com")
                    Examples.params None "patch" eq_refl eq_refl eq_refl));
      reflexivity.
Defined.

(** With tunneling disabled the request is rejected with status 400, but
    the text [Cannot tunnel to the method PATCH.] is neither the detail of
    the error, which has none, nor its title: the source puts the method
    name in double quotes. *)
Lemma tunnel_message_is_quoted :
  ~ exists e,
      Strategy.buildRequestObject Examples.platform Examples.tunnelOff
        Examples.tunneled None (Some "example.com") Examples.params None
      = Strategy.Rejected (JSAPIError e)
      /\ APIError.status e = 400
      /\ (APIError.detail e = Some "Cannot tunnel to the method PATCH."
          \/ APIError.title e = Some "Cannot tunnel to the method PATCH.").
Proof.
  intros (e & Hbuilt & _ & [Htext | Htext]);
    injection Hbuilt as <-; discriminate Htext.
Qed.

Lemma override_rejected_unless_post_to_patch_witness :
  exists e,
    Strategy.buildRequestObject Examples.platform Examples.tunnelOn
      Examples.overridden None (Some "example.com") Examples.params None
    = Strategy.Rejected (JSAPIError e)
    /\ APIError.status e = 400
    /\ APIError.title e
       = Some ("Cannot tunnel to the method " ++ dquote ++ "DELETE" ++ dquote
               ++ ".").
Proof.
  apply (override_rejected_unless_post_to_patch Examples.platform
           Examples.tunnelOn Examples.overridden None (Some "example.com")
           Examples.params None "DELETE" eq_refl).
  - discriminate.
  - intros (_ & Hpost & _). discriminate Hpost.
Defined.


(** * Further properties *)

(** ** Criteria translation, continued *)

Lemma Filter_nested_ind (P : Filter -> Prop) :
  (forall operator value, Forall P value -> P (Predicate operator value)) ->
  (forall field operator value, P (FieldConstraint field operator value)) ->
  forall filter, P filter.
Proof.
  intros Hpredicate Hconstraint. fix IH 1.
  intros [operator value | field operator value].
  - apply Hpredicate. revert value. fix IHvalue 1.
    intros [| c cs]; constructor; [apply IH | apply IHvalue].
  - apply Hconstraint.
Qed.

Lemma mongoField_not_junction (field : string) :
  isJunction field = false -> isJunction (Mongoose.mongoField field) = false.
Proof.
  unfold Mongoose.mongoField.
  destruct (String.eqb_spec field "id") as [-> |]; [reflexivity | auto].
Qed.

Lemma mongoOperator_not_junction (operator : string) :
  String.eqb operator "and" || String.eqb operator "or" = false ->
  isJunction (Mongoose.mongoOperator operator) = false.
Proof.
  unfold Mongoose.mongoOperator, isJunction. intros Hplain.
  destruct (String.eqb operator "neq"); [reflexivity |].
  exact Hplain.
Qed.

(** The criteria made from a filter never hold an [$and] or [$or] over an
    empty array, under any key and at any depth, as long as the values
    of the constraints hold none themselves and no constraint is on a
    field that is itself named [$and] or [$or] (nor has the operator [and]
    or [or], which its type excludes). *)
Theorem toMongoCriteria_noEmptyJunction (filter : Filter) :
  plainConstraints filter = true ->
  noEmptyJunction (Mongoose.toMongoCriteria filter) = true.
Proof.
  induction filter as [operator value IH | field operator value]
    using Filter_nested_ind; intros Hplain.
  - destruct value as [| c cs]; [reflexivity |].
    cbn [Mongoose.toMongoCriteria length Nat.eqb noEmptyJunction forallb
         map emptyArray].
    rewrite andb_false_r. cbn [negb andb]. rewrite andb_true_r.
    cbn [plainConstraints forallb] in Hplain.
    apply andb_true_iff in Hplain. destruct Hplain as [Hc Hcs].
    apply Forall_cons in IH. destruct IH as [IHc IHcs].
    rewrite (IHc Hc). cbn [andb].
    apply forallb_forall. intros criteria Hin.
    apply in_map_iff in Hin. destruct Hin as (c' & <- & Hin).
    rewrite Forall_forall in IHcs. apply IHcs.
    + now apply list_elem_of_In.
    + rewrite forallb_forall in Hcs. now apply Hcs.
  - cbn [plainConstraints] in Hplain.
    apply andb_true_iff in Hplain. destruct Hplain as [Hplain Hvalue].
    apply andb_true_iff in Hplain. destruct Hplain as [Hfield Hoperator].
    apply negb_true_iff in Hfield, Hoperator.
    apply mongoField_not_junction in Hfield.
    apply mongoOperator_not_junction in Hoperator.
    cbn [Mongoose.toMongoCriteria].
    destruct (String.eqb operator "eq");
      cbn [noEmptyJunction forallb]; rewrite Hfield; cbn [negb andb].
    + now rewrite Hvalue.
    + rewrite Hoperator, Hvalue. reflexivity.
Qed.

Lemma toMongoCriteria_noEmptyJunction_witness :
  noEmptyJunction
    (Mongoose.toMongoCriteria
       (Predicate Or
          [Predicate And [];
           FieldConstraint "id" "in" (JArr [JStr "1"; JStr "2"]);
           Predicate And [FieldConstraint "name" "eq" (JArr [])]]))
  = true.
Proof. apply toMongoCriteria_noEmptyJunction. reflexivity. Defined.

(** ** The Mongoose error handler, continued *)

Section FieldErrors.

Variable fromError : JSValue -> APIError.
Variables invalidFieldValue uniqueViolation : ErrorOpts -> APIError.

Local Abbreviation errorHandler :=
  (Mongoose.errorHandler invalidFieldValue uniqueViolation fromError).

(** An error that carries an [errors] collection is thrown as one error
    per key of the collection, in key order, whatever its [code]: for a
    [ValidationError] the invalid-field-value error whose detail is the
    message of the field's error, for any other the from-error coercion of
    the field's error. *)
Theorem errorHandler_field_errors (err : ErrorObject)
    (fieldErrors : list (string * ErrorObject)) :
  ErrorObject.errors err = Some fieldErrors ->
  exists thrown,
    errorHandler err = Threw (JSArray thrown)
    /\ length thrown = length fieldErrors
    /\ forall (i : nat) key thisError,
         fieldErrors !! i = Some (key, thisError) ->
         thrown !! i
         = Some (JSAPIError
             (if decide (ErrorObject.name err = "ValidationError")
              then invalidFieldValue
                     {| ErrorOpts.detail :=
                          Some (ErrorObject.message thisError);
                        ErrorOpts.rawError := Some thisError;
                        ErrorOpts.code := None |}
              else fromError (JSErrorObj thisError))).
Proof.
  intros Herrors. unfold Mongoose.errorHandler. rewrite Herrors.
  eexists. split; [reflexivity |]. split; [apply length_map |].
  intros i key thisError Hlookup.
  change (map ?f ?l) with (f <$> l). rewrite list_lookup_fmap, Hlookup.
  simpl. unfold Mongoose.formatFieldError. simpl.
  destruct (String.eqb_spec (ErrorObject.name err) "ValidationError");
    destruct (decide (ErrorObject.name err = "ValidationError"));
    congruence.
Qed.

(** An error without [errors] collection that is no duplicate-key error
    is thrown raw, as the only element; the Result the controller makes
    from what is thrown holds its from-error coercion, not the raw error,
    and takes its status from it. *)
Theorem errorHandler_unrecognized (err : ErrorObject) (registry : Registry)
    (request : Request) :
  ErrorObject.errors err = None ->
  ~ (ErrorObject.name err = "MongoError"
     /\ ErrorObject.code err = Some 11000) ->
  errorHandler err = Threw (JSArray [JSErrorObj err])
  /\ forall thrown,
       errorHandler err = Threw thrown ->
       let result :=
         API.makeResultFromErrors fromError (API.makeDocFor registry request)
           thrown in
       Document.errors <$> Result.document result
       = Some (Some [fromError (JSErrorObj err)])
       /\ Result.status result
          = Some (APIError.status (fromError (JSErrorObj err))).
Proof.
  intros Hnone Hnot.
  assert (Hthrown : errorHandler err = Threw (JSArray [JSErrorObj err])).
  { unfold Mongoose.errorHandler. rewrite Hnone.
    destruct (String.eqb_spec (ErrorObject.name err) "MongoError");
      [| reflexivity].
    destruct (bool_decide_reflect (ErrorObject.code err = Some 11000));
      [| reflexivity].
    exfalso. now apply Hnot. }
  split; [exact Hthrown |].
  intros thrown Heq. rewrite Hthrown in Heq. injection Heq as <-.
  split; reflexivity.
Qed.

End FieldErrors.

Lemma errorHandler_field_errors_witness :
  let nameError :=
    ErrorObject.mk "ValidatorError" "Name is required." None None in
  let ageError :=
    ErrorObject.mk "CastError" "Age must be a number." None None in
  let err :=
    ErrorObject.mk "ValidationError" "Validation failed" None
      (Some [("name", nameError); ("age", ageError)]) in
  exists thrown,
    Mongoose.errorHandler Examples.invalidFieldValue Examples.uniqueViolation
      Examples.fromErrorModel err
    = Threw (JSArray thrown)
    /\ length thrown = 2%nat
    /\ thrown !! 1%nat
       = Some (JSAPIError
           (Examples.invalidFieldValue
              (ErrorOpts.mk (Some "Age must be a number.") (Some ageError)
                 None))).
Proof.
  intros nameError ageError err.
  destruct (errorHandler_field_errors Examples.fromErrorModel
              Examples.invalidFieldValue Examples.uniqueViolation err
              _ eq_refl) as (thrown & Hthrown & Hlength & Hnth).
  exists thrown. split; [exact Hthrown |]. split; [exact Hlength |].
  apply (Hnth 1%nat "age" ageError). reflexivity.
Defined.

Lemma errorHandler_unrecognized_witness :
  let err := ErrorObject.mk "MongoError" "connection lost" (Some 89) None in
  Mongoose.errorHandler Examples.invalidFieldValue Examples.uniqueViolation
    Examples.fromErrorModel err
  = Threw (JSArray [JSErrorObj err]).
Proof.
  intros err.
  apply (errorHandler_unrecognized Examples.fromErrorModel
           Examples.invalidFieldValue Examples.uniqueViolation err
           Examples.registry (Examples.get "people" IdUndefined false)
           eq_refl).
  intros [_ Hcode]. discriminate Hcode.
Defined.

(** ** Documents for the store *)

Section DocObjects.

Import Store.

Lemma assign_snoc {V : Type} (res : gmap string V)
    (members : list (string * V)) (member : string * V) :
  assign res (members ++ [member])
  = <[fst member := snd member]> (assign res members).
Proof. unfold assign. now rewrite foldl_app. Qed.

(** A key that is never assigned keeps what it had. *)
Lemma assign_lookup_other {V : Type} (res : gmap string V)
    (members : list (string * V)) (key : string) :
  ~ In key (map fst members) -> assign res members !! key = res !! key.
Proof.
  induction members as [| member members IH] using rev_ind; intros Hnotin.
  - reflexivity.
  - rewrite assign_snoc. rewrite map_app, in_app_iff in Hnotin.
    rewrite lookup_insert_ne.
    + apply IH. tauto.
    + intros Heq. apply Hnotin. right. left. exact Heq.
Qed.

(** A key that is assigned once holds what it was assigned. *)
Lemma assign_lookup_member {V : Type} (res : gmap string V)
    (members : list (string * V)) (key : string) (v : V) :
  NoDup (map fst members) -> In (key, v) members ->
  assign res members !! key = Some v.
Proof.
  induction members as [| member members IH] using rev_ind;
    intros Hnodup Hin.
  - destruct Hin.
  - rewrite assign_snoc. rewrite map_app in Hnodup.
    apply NoDup_app in Hnodup. destruct Hnodup as (Hnodup & Hdisjoint & _).
    apply in_app_iff in Hin. destruct Hin as [Hin | [-> | []]].
    + rewrite lookup_insert_ne; [now apply IH |].
      intros Heq. apply (Hdisjoint key).
      * apply list_elem_of_In, in_map_iff. now exists (key, v).
      * apply list_elem_of_In. simpl. left. exact Heq.
    + simpl. apply lookup_insert_eq.
Qed.

(** The document made for a resource holds, under each key, the ids of the
    relationship of that name if there is one; otherwise what the type-path
    function gives under that key, if it gives something; otherwise the
    attribute of that name; and nothing under any other key.  (The keys of
    the attributes and of the relationships are those of objects, hence
    distinct.) *)
Theorem resourceToDocObject_lookup (stored : Stored)
    (typePathFn : option (option (list string) -> gmap string JSON))
    (key : string) :
  NoDup (map fst (attrs (resource stored))) ->
  NoDup (map fst (relationships stored)) ->
  let doc := resourceToDocObject stored typePathFn in
  let fromTypePath : gmap string JSON :=
    match typePathFn with Some fn => fn (typePath stored) | None => ∅ end in
  (forall linkage,
      In (key, linkage) (relationships stored) ->
      doc !! key = Some (unwrapIds linkage))
  /\ (~ In key (map fst (relationships stored)) ->
      (forall v, fromTypePath !! key = Some v -> doc !! key = Some v)
      /\ (fromTypePath !! key = None ->
          (forall v, In (key, v) (attrs (resource stored)) ->
                     doc !! key = Some v)
          /\ (~ In key (map fst (attrs (resource stored))) ->
              doc !! key = None))).
Proof.
  intros Hattrs Hrels doc fromTypePath. subst doc.
  unfold resourceToDocObject. fold fromTypePath. cbv zeta. split.
  - intros linkage Hin. apply assign_lookup_member.
    + now rewrite map_map.
    + apply in_map_iff. now exists (key, linkage).
  - intros Hnotin. rewrite assign_lookup_other by now rewrite map_map.
    rewrite lookup_union. split.
    + intros v ->. now destruct (assign ∅ _ !! key).
    + intros ->. split.
      * intros v Hin.
        now rewrite (assign_lookup_member ∅ _ key v Hattrs Hin).
      * intros Hnoattr.
        now rewrite assign_lookup_other, lookup_empty by assumption.
Qed.

End DocObjects.

Lemma resourceToDocObject_lookup_witness :
  let person :=
    Store.mkStored
      (mkResource "people" (Some "7")
         [("name", JStr "Ada"); ("team", JStr "none")])
      (Some ["people"; "engineers"])
      [("team", Store.LinkOne "3"); ("friends", Store.LinkMany ["4"; "5"])] in
  let typePathFn (path : option (list string)) : gmap string JSON :=
    {[ "__t" := JStr "engineers" ]} in
  let doc := Store.resourceToDocObject person (Some typePathFn) in
  doc !! "team" = Some (JStr "3")
  /\ doc !! "__t" = Some (JStr "engineers")
  /\ doc !! "name" = Some (JStr "Ada")
  /\ doc !! "id" = None.
Proof.
  intros person typePathFn doc.
  assert (Hattrs : NoDup (map fst (attrs (Store.resource person))))
    by (apply (bool_decide_unpack _); vm_compute; exact I).
  assert (Hrels : NoDup (map fst (Store.relationships person)))
    by (apply (bool_decide_unpack _); vm_compute; exact I).
  split; [| split; [| split]].
  - apply (proj1 (resourceToDocObject_lookup person (Some typePathFn) "team"
                    Hattrs Hrels) (Store.LinkOne "3")).
    simpl. now left.
  - assert (Hnotin : ~ In "__t" (map fst (Store.relationships person)))
      by (simpl; intuition discriminate).
    apply (proj1 (proj2 (resourceToDocObject_lookup person (Some typePathFn)
                           "__t" Hattrs Hrels) Hnotin)).
    reflexivity.
  - assert (Hnotin : ~ In "name" (map fst (Store.relationships person)))
      by (simpl; intuition discriminate).
    apply (proj1 (proj2 (proj2 (resourceToDocObject_lookup person
                                  (Some typePathFn) "name" Hattrs Hrels)
                           Hnotin) eq_refl)).
    simpl. now left.
  - assert (Hnotin : ~ In "id" (map fst (Store.relationships person)))
      by (simpl; intuition discriminate).
    apply (proj2 (proj2 (proj2 (resourceToDocObject_lookup person
                                  (Some typePathFn) "id" Hattrs Hrels)
                           Hnotin) eq_refl)).
    simpl. intuition discriminate.
Defined.


(** ** Building the request, continued *)

Lemma index_question_mark_cons (c : ascii) (s : string) :
  String.index 0 "?" (String c s)
  = if ascii_dec "?" c then Some 0%nat
    else match String.index 0 "?" s with
         | Some n => Some (S n)
         | None => None
         end.
Proof.
  cbn [String.index String.prefix].
  destruct (ascii_dec "?" c); [now destruct s | reflexivity].
Qed.

Lemma index_question_mark (path query : string) :
  String.index 0 "?" path = None ->
  String.index 0 "?" (path ++ "?" ++ query) = Some (String.length path).
Proof.
  induction path as [| c path IH]; intros Hnone.
  - change ("" ++ "?" ++ query) with (String "?" query).
    rewrite index_question_mark_cons.
    now destruct (ascii_dec "?" "?").
  - change (String c path ++ "?" ++ query)
      with (String c (path ++ "?" ++ query)).
    rewrite index_question_mark_cons in Hnone |- *.
    destruct (ascii_dec "?" c) as [Heq | Hne]; [discriminate |].
    destruct (String.index 0 "?" path); [discriminate |].
    now rewrite IH.
Qed.

Lemma substring_all (s : string) :
  String.substring 0 (String.length s) s = s.
Proof. induction s as [| c s IH]; simpl; [reflexivity | now rewrite IH]. Qed.

Lemma substring_after (path query : string) :
  String.substring (S (String.length path))
    (String.length (path ++ "?" ++ query) - S (String.length path))
    (path ++ "?" ++ query)
  = query.
Proof.
  induction path as [| c path IH].
  - simpl. rewrite Nat.sub_0_r. apply substring_all.
  - simpl in IH |- *. exact IH.
Qed.

Section Building.

Import Strategy.

Variable P : Platform.
Variable config : HTTPStrategyOptions.
Variable req : IncomingMessage.
Variables protocol fallbackHost : option string.
Variable params : Params.
Variable parsedQuery : option JSON.

Local Abbreviation built :=
  (buildRequestObject P config req protocol fallbackHost params parsedQuery).
Local Abbreviation initial :=
  (initialRequest P config req protocol fallbackHost params parsedQuery).

Lemma keeps_fulfilledWith_resolve (Q : Request -> Prop) (it : Request) :
  Q it -> keeps (FulfilledWith Q) (resolve it).
Proof.
  intros Hq. apply keeps_modify. intros p Hp it' Hit.
  destruct p; [congruence | now apply Hp | discriminate].
Qed.

Lemma keeps_fulfilledWith_reject (Q : Request -> Prop) (e : JSValue) :
  keeps (FulfilledWith Q) (@reject Request e).
Proof.
  apply keeps_modify. intros p Hp it' Hit.
  destruct p; [discriminate | now apply Hp | discriminate].
Qed.

Lemma readBody_fulfilledWith (Q : Request -> Prop) (it : Request) :
  (forall has body, Q (Request.setBody has body it)) ->
  (forall has body contentType,
      Q (Request.setBody has body (Request.setContentType contentType it))) ->
  keeps (FulfilledWith Q) (readBody P req it).
Proof.
  intros Hplain Htyped. unfold readBody, onRawBody. cbv zeta.
  repeat first
    [ keeps_step
    | apply keeps_fulfilledWith_resolve; solve [apply Hplain | apply Htyped]
    | apply keeps_fulfilledWith_reject ].
Qed.

(** What tunneling leaves behind: the request as it was or with the method
    [patch], on a promise that is still pending, or the request as it was
    on a rejected promise. *)
Lemma tunnelVerb_cases (it : Request) (requested : string) :
  exists p it',
    tunnelVerb config it requested Pending = (p, Returned it')
    /\ (it' = it \/ it' = Request.setMethod "patch" it)
    /\ (p = Pending \/ exists e, p = Rejected e).
Proof.
  unfold tunnelVerb.
  destruct (_ && _ && _); [| destruct (truthyString requested)];
    eexists _, _; (split; [reflexivity |]); eauto.
Qed.

(** Tunneling and the reading of the body leave everything else of the
    request as the executor first filled it in. *)
Lemma built_route :
  FulfilledWith
    (fun it =>
       route it = route initial
       /\ (Request.method it = toLowerCase (method req)
           \/ Request.method it = "patch"))
    built.
Proof.
  unfold buildRequestObject. apply newPromise_keeps.
  - unfold buildRequestExecutor.
    destruct (tunnelVerb_cases initial (requestedMethod req))
      as (p & it' & Htunnel & Hit & Hp).
    erewrite bind_state by exact Htunnel.
    apply readBody_fulfilledWith.
    + intros has body. destruct Hit as [-> | ->]; split; auto.
    + intros has body contentType. destruct Hit as [-> | ->]; split; auto.
    + intros it Hfulfilled.
      destruct Hp as [-> | [e ->]]; discriminate Hfulfilled.
  - intros _ e it Hit. discriminate Hit.
Qed.

(** A built request allows a label only when the route gave a non-empty
    [idOrLabel] and no [id], and its identifier slot then holds that label;
    when the route gave an [id], the slot holds the id and no label is
    allowed.  So a request that allows a label always has a non-empty
    identifier slot. *)
Theorem built_request_label (it : Request) :
  built = Fulfilled it ->
  (Request.allowLabel it = true ->
   exists label,
     idOrLabel params = Some label /\ label <> ""
     /\ truthyOptString (id params) = false
     /\ Request.idOrIds it = IdOne label)
  /\ (forall i,
        id params = Some i -> i <> "" ->
        Request.allowLabel it = false /\ Request.idOrIds it = IdOne i)
  /\ truthyIds (Request.idOrIds it) && Request.allowLabel it
     = Request.allowLabel it.
Proof.
  intros Hbuilt. destruct (built_route it Hbuilt) as [Hroute _].
  injection Hroute as _ _ Hallow Hids _ _ _ _ _.
  rewrite Hallow, Hids. unfold initialRequest. cbn [Request.allowLabel
    Request.idOrIds]. unfold orElse.
  destruct (id params) as [[| c i] |], (idOrLabel params) as [[| c' l] |];
    cbn; repeat split; try discriminate; try congruence;
    try (intros _; eexists; repeat split; congruence).
Qed.

(** When a host is configured, the URI of a built request is made from
    that host and never from the fallback host, which comes from a request
    header; the scheme is the protocol given or, without one, that of the
    connection. *)
Theorem built_request_uri (it : Request) (configured : string) :
  buildRequestObject P config req protocol fallbackHost params parsedQuery
  = Fulfilled it ->
  host config = Some configured -> configured <> "" ->
  let scheme := if encrypted req then "https" else "http" in
  (forall given,
      protocol = Some given -> given <> "" ->
      Request.uri it = given ++ "://" ++ configured ++ url req)
  /\ (protocol = None \/ protocol = Some "" ->
      Request.uri it = scheme ++ "://" ++ configured ++ url req).
Proof.
  intros Hbuilt Hhost Hne scheme.
  destruct (built_route it Hbuilt) as [Hroute _].
  injection Hroute as _ _ _ _ _ _ _ Huri _.
  rewrite Huri. unfold initialRequest. cbn [Request.uri].
  rewrite Hhost.
  assert (Hconfigured :
    display (orElse (Some configured) fallbackHost) = configured).
  { unfold orElse. cbn [truthyOptString].
    now rewrite (truthyString_true _ Hne). }
  rewrite Hconfigured. split.
  - intros given Hprotocol Hgiven. rewrite Hprotocol.
    unfold orElse. cbn [truthyOptString].
    now rewrite (truthyString_true _ Hgiven).
  - intros [Hprotocol | Hprotocol]; now rewrite Hprotocol.
Qed.

(** The raw query string of a built request is what follows the first
    question mark of the URL, and is absent when nothing follows or when
    there is no question mark; the query parameters are the pre-parsed ones
    when given, else the parse of that string, else an empty object. *)
Theorem built_request_query (it : Request) :
  built = Fulfilled it ->
  (String.index 0 "?" (url req) = None ->
   Request.rawQueryString it = None
   /\ Request.queryParams it = RawParams (default (JObj []) parsedQuery))
  /\ (forall path query,
        url req = path ++ "?" ++ query ->
        String.index 0 "?" path = None ->
        Request.rawQueryString it
        = (if truthyString query then Some query else None)
        /\ Request.queryParams it
           = RawParams match parsedQuery with
                       | Some parsed => parsed
                       | None => qsParse P query
                       end).
Proof.
  intros Hbuilt. destruct (built_route it Hbuilt) as [Hroute _].
  injection Hroute as Hparams Hraw _ _ _ _ _ _ _.
  rewrite Hparams, Hraw. unfold initialRequest.
  cbn [Request.rawQueryString Request.queryParams]. split.
  - intros Hnone. rewrite Hnone. now destruct parsedQuery.
  - intros path query Hurl Hpath.
    rewrite Hurl, (index_question_mark _ _ Hpath), substring_after.
    split; [reflexivity | now destruct parsedQuery].
Qed.

Hypothesis noOverride : headers req !! "x-http-method-override" = None.

Lemma built_without_override : built = newPromise (readBody P req initial).
Proof.
  unfold buildRequestObject, buildRequestExecutor, newPromise, bind.
  unfold tunnelVerb, requestedMethod. rewrite noOverride.
  cbn [orElse truthyOptString default toLowerCase truthyString].
  now rewrite andb_false_r.
Qed.

(** A request without body and without method override is built with
    [hasBody] unset and no body, its method in lower case. *)
Theorem request_without_body :
  hasBody P req = false ->
  exists it,
    built = Fulfilled it
    /\ Request.hasBody it = false
    /\ Request.body it = None
    /\ Request.method it = toLowerCase (method req).
Proof.
  intros Hnobody. rewrite built_without_override.
  unfold readBody. rewrite Hnobody. eexists. repeat split.
Qed.

(** A request without method override that has a body whose stream cannot
    be read any more, for instance because other middleware has read it,
    is rejected with an error of status 500. *)
Theorem unreadable_body_rejected :
  hasBody P req = true ->
  isReadableStream req = false ->
  exists e,
    built = Rejected (JSAPIError e) /\ APIError.status e = 500.
Proof.
  intros Hbody Hunreadable. rewrite built_without_override.
  unfold readBody. rewrite Hbody, Hunreadable. eexists. split; reflexivity.
Qed.

(** A request without method override that has a readable body but no (or
    an empty) content-type header is rejected with a [TypeError], not with
    an error of the taxonomy: the charset is read off a media type that
    was never parsed. *)
Theorem body_without_content_type :
  hasBody P req = true ->
  isReadableStream req = true ->
  headers req !! "content-type" = None
  \/ headers req !! "content-type" = Some "" ->
  built = Rejected (JSErrorObj TypeError).
Proof.
  intros Hbody Hreadable Hheader. rewrite built_without_override.
  unfold readBody. rewrite Hbody, Hreadable. cbn [negb].
  destruct Hheader as [-> | ->]; reflexivity.
Qed.

(** The body of a request without method override, with a readable body
    and a content type that parses, is read with a limit of 1mb, in the
    charset of the content type or else in utf8.  A read error rejects
    with that error; an empty text builds a request with [hasBody] unset
    and the empty string as body; a text that is no JSON rejects with an
    error of status 400; any other text builds a request whose body is the
    parsed JSON. *)
Theorem body_read (contentType : string) (typeParsed : ParsedMediaType) :
  hasBody P req = true ->
  isReadableStream req = true ->
  headers req !! "content-type" = Some contentType -> contentType <> "" ->
  contentTypeParse P req = Returned typeParsed ->
  exists options,
    limit options = "1mb"
    /\ encoding options = charsetOf typeParsed
    /\ match getRawBody P req options with
       | Threw err => built = Rejected err
       | Returned text =>
           if decide (text = "")
           then exists it,
                  built = Fulfilled it
                  /\ Request.hasBody it = false
                  /\ Request.body it = Some (JStr "")
           else match JSONparse P text with
                | None =>
                    built
                    = Rejected (JSAPIError
                        (newAPIError 400 None
                           "Request contains invalid JSON."))
                | Some parsed =>
                    exists it,
                      built = Fulfilled it
                      /\ Request.hasBody it = true
                      /\ Request.body it = Some parsed
                      /\ Request.contentType it = Some contentType
                end
       end.
Proof.
  intros Hbody Hreadable Hheader Hne Hparse. rewrite built_without_override.
  set (options :=
    {| encoding :=
         default "utf8"
           (orElse (parameters typeParsed !! "charset") (Some "utf8"));
       limit := "1mb";
       length :=
         if truthyOptString (headers req !! "content-length")
            && negb (isNaNHeader P (headers req !! "content-length"))
         then headers req !! "content-length"
         else None |}).
  exists options. split; [reflexivity |]. split.
  - unfold charsetOf, orElse. cbn [encoding options].
    destruct (parameters typeParsed !! "charset") as [[| c charset] |];
      reflexivity.
  - unfold readBody. rewrite Hbody, Hreadable, Hheader. cbn [negb].
    cbn [Request.setContentType Request.contentType truthyOptString].
    rewrite (truthyString_true _ Hne), Hparse.
    unfold newPromise, bind, await. cbv zeta.
    change (getRawBody P req _) with (getRawBody P req options).
    destruct (getRawBody P req options) as [text | err]; [| reflexivity].
    unfold onRawBody.
    destruct (decide (text = "")) as [-> | Htext].
    + eexists. repeat split.
    + destruct text as [| c text]; [contradiction |].
      cbn [String.length Nat.eqb].
      destruct (JSONparse P (String c text)); [| reflexivity].
      eexists. repeat split.
Qed.

End Building.

(** Tunneling is off unless the options turn it on: a strategy made
    without options, or with options that do not set [tunnel] to [true],
    rejects every request that carries a non-empty method override with an
    error of status 400. *)
Theorem tunneling_off_by_default (P : Strategy.Platform)
    (options : option Strategy.HTTPStrategyOptions)
    (req : Strategy.IncomingMessage) (protocol fallbackHost : option string)
    (params : Strategy.Params) (parsedQuery : option JSON)
    (override : string) :
  (forall o, options = Some o -> Strategy.tunnel o <> Some true) ->
  Strategy.headers req !! "x-http-method-override" = Some override ->
  override <> "" ->
  exists e,
    Strategy.buildRequestObject P (Strategy.newConfig options) req protocol
      fallbackHost params parsedQuery
    = Strategy.Rejected (JSAPIError e)
    /\ APIError.status e = 400.
Proof.
  intros Hoff Hheader Hne.
  assert (Htunnel :
    Strategy.tunnel (Strategy.newConfig options) = Some false).
  { destruct options as [o |]; [| reflexivity]. simpl.
    specialize (Hoff o eq_refl).
    destruct (Strategy.tunnel o) as [[|] |]; [contradiction | | ];
      reflexivity. }
  eexists. split.
  - apply (override_not_admitted P _ req protocol fallbackHost params
             parsedQuery override Hheader Hne).
    unfold admitted. now rewrite Htunnel.
  - reflexivity.
Qed.

Lemma tunneling_off_by_default_witness :
  exists e,
    Strategy.buildRequestObject Examples.platform (Strategy.newConfig None)
      Examples.tunneled None (Some "example.com") Examples.params None
    = Strategy.Rejected (JSAPIError e)
    /\ APIError.status e = 400.
Proof.
  apply (tunneling_off_by_default Examples.platform None Examples.tunneled
           None (Some "example.com") Examples.params None "patch").
  - intros o Ho. discriminate Ho.
  - reflexivity.
  - discriminate.
Defined.

Lemma built_request_label_witness :
  exists it,
    Strategy.buildRequestObject Examples.platform Examples.tunnelOff
      Samples.fetch None (Some "evil.test") Samples.labelled None
    = Strategy.Fulfilled it
    /\ Request.idOrIds it = IdOne "everyone"
    /\ truthyIds (Request.idOrIds it) && Request.allowLabel it = true.
Proof.
  eexists. split; [reflexivity |].
  destruct (built_request_label Examples.platform Examples.tunnelOff
              Samples.fetch None (Some "evil.test") Samples.labelled None
              _ eq_refl) as (Hlabel & _ & Hslot).
  destruct (Hlabel eq_refl) as (label & Hgiven & _ & _ & Hids).
  injection Hgiven as <-. split; [exact Hids | exact Hslot].
Defined.

Lemma built_request_uri_witness :
  exists it,
    Strategy.buildRequestObject Examples.platform Samples.hosted
      Samples.fetch None (Some "evil.test") Samples.labelled None
    = Strategy.Fulfilled it
    /\ Request.uri it
       = "https://api.example.com/people/everyone?sort=name".
Proof.
  eexists. split; [reflexivity |].
  apply (proj2 (built_request_uri Examples.platform Samples.hosted
                  Samples.fetch None (Some "evil.test") Samples.labelled
                  None _ "api.example.com" eq_refl eq_refl
                  ltac:(discriminate))).
  now left.
Defined.

Lemma built_request_query_witness :
  exists it,
    Strategy.buildRequestObject (Samples.reader "") Examples.tunnelOff
      Samples.fetch None (Some "evil.test") Samples.labelled None
    = Strategy.Fulfilled it
    /\ Request.rawQueryString it = Some "sort=name"
    /\ Request.queryParams it = RawParams (JObj [("raw", JStr "sort=name")]).
Proof.
  eexists. split; [reflexivity |].
  apply (proj2 (built_request_query (Samples.reader "") Examples.tunnelOff
                  Samples.fetch None (Some "evil.test") Samples.labelled
                  None _ eq_refl) "/people/everyone" "sort=name");
    reflexivity.
Defined.

Lemma request_without_body_witness :
  exists it,
    Strategy.buildRequestObject Examples.platform Examples.tunnelOff
      Samples.fetch None (Some "evil.test") Samples.labelled None
    = Strategy.Fulfilled it
    /\ Request.hasBody it = false
    /\ Request.body it = None
    /\ Request.method it = "get".
Proof.
  apply (request_without_body Examples.platform Examples.tunnelOff
           Samples.fetch None (Some "evil.test") Samples.labelled None);
    reflexivity.
Defined.

Lemma unreadable_body_rejected_witness :
  exists e,
    Strategy.buildRequestObject (Samples.reader "{}") Examples.tunnelOff
      (Samples.posted (Some "application/vnd.api+json") true) None
      (Some "example.com") Samples.collection None
    = Strategy.Rejected (JSAPIError e)
    /\ APIError.status e = 500.
Proof.
  apply (unreadable_body_rejected (Samples.reader "{}") Examples.tunnelOff
           (Samples.posted (Some "application/vnd.api+json") true) None
           (Some "example.com") Samples.collection None);
    reflexivity.
Defined.

Lemma body_without_content_type_witness :
  Strategy.buildRequestObject (Samples.reader "{}") Examples.tunnelOff
    (Samples.posted None false) None (Some "example.com")
    Samples.collection None
  = Strategy.Rejected (JSErrorObj TypeError).
Proof.
  apply (body_without_content_type (Samples.reader "{}") Examples.tunnelOff
           (Samples.posted None false) None (Some "example.com")
           Samples.collection None); try reflexivity.
  now left.
Defined.

Lemma body_read_witness :
  let req := Samples.posted (Some "application/vnd.api+json") false in
  (exists it,
      Strategy.buildRequestObject (Samples.reader "{}") Examples.tunnelOff
        req None (Some "example.com") Samples.collection None
      = Strategy.Fulfilled it
      /\ Request.hasBody it = true
      /\ Request.body it = Some (JObj []))
  /\ Strategy.buildRequestObject (Samples.reader "{") Examples.tunnelOff
       req None (Some "example.com") Samples.collection None
     = Strategy.Rejected (JSAPIError
         (newAPIError 400 None "Request contains invalid JSON.")).
Proof.
  intros req. split.
  - destruct (body_read (Samples.reader "{}") Examples.tunnelOff req None
                (Some "example.com") Samples.collection None eq_refl
                "application/vnd.api+json"
                (Strategy.mkParsedMediaType "application/vnd.api+json"
                   {[ "charset" := "latin1" ]})
                eq_refl eq_refl eq_refl ltac:(discriminate) eq_refl)
      as (options & _ & _ & Hread).
    simpl in Hread. destruct Hread as (it & Hbuilt & Hhas & Hparsed & _).
    exists it. repeat split; assumption.
  - destruct (body_read (Samples.reader "{") Examples.tunnelOff req None
                (Some "example.com") Samples.collection None eq_refl
                "application/vnd.api+json"
                (Strategy.mkParsedMediaType "application/vnd.api+json"
                   {[ "charset" := "latin1" ]})
                eq_refl eq_refl eq_refl ltac:(discriminate) eq_refl)
      as (options & _ & _ & Hread).
    exact Hread.
Defined.


(** ** Error responses *)

Section ErrorResponses.

Import API.

Variable toString : Document -> string.
Variable fromError : JSValue -> APIError.

Lemma errors_to_response (reqURI : option string) (templates : option JSON)
    (errors : JSValue) (negotiatedMediaType : option string) :
  let coerced := map fromError (toErrorArray errors) in
  let response :=
    resultToHTTPResponse toString
      (makeResultFromErrors fromError (newDocument reqURI templates) errors)
      negotiatedMediaType in
  HTTPResponse.status response = head (map APIError.status coerced)
  /\ HTTPResponse.headers response
     = defaultHeaders (mediaTypeOr negotiatedMediaType)
  /\ HTTPResponse.body response
     = Some (toString
         (newDocument reqURI templates
            {| DocumentData.primary := None;
               DocumentData.included := None;
               DocumentData.errors := Some coerced |})).
Proof.
  intros coerced response. subst response.
  unfold resultToHTTPResponse, makeResultFromErrors. cbv zeta.
  cbn [Result.status Result.document Result.headers HTTPResponse.status
       HTTPResponse.headers HTTPResponse.body newDocument Document.errors
       DocumentData.errors default fmap option_fmap option_map].
  fold coerced. split; [| split].
  - unfold pickStatus.
    now destruct (truthyOptNumber (head (map APIError.status coerced))).
  - rewrite (left_id ∅ _). unfold defaultHeaders, mediaTypeOr, orElse.
    now destruct negotiatedMediaType as [[| c r] |].
  - reflexivity.
Qed.

(** The response made from a failure value takes its status from the
    first error of the array, after coercion, and has no status when the
    array is empty; its headers are the two defaults and nothing else; its
    body is the Document of the coerced errors. *)
Theorem error_response (reqURI : option string) (templates : option JSON)
    (errors : JSValue) (negotiatedMediaType : option string) :
  let coerced := map fromError (toErrorArray errors) in
  let response :=
    resultToHTTPResponse toString
      (makeResultFromErrors fromError (newDocument reqURI templates) errors)
      negotiatedMediaType in
  HTTPResponse.status response = head (map APIError.status coerced)
  /\ HTTPResponse.headers response
     = defaultHeaders (mediaTypeOr negotiatedMediaType)
  /\ HTTPResponse.body response
     = Some (toString
         (newDocument reqURI templates
            {| DocumentData.primary := None;
               DocumentData.included := None;
               DocumentData.errors := Some coerced |})).
Proof.
  exact (errors_to_response reqURI templates errors negotiatedMediaType).
Qed.

End ErrorResponses.

(** For a value that holds no [null] or [undefined],
    [responseFromExternalError] answers: the response varies on Accept
    and carries no other header than the content type, which is the
    negotiated media type, or the JSON:API media type when the negotiation
    fails; its status is that of the first error after coercion.  For
    [null], [undefined] or an array that holds one of them, the call
    rejects with the [TypeError] of the coercion, which stands outside the
    [try]. *)
Theorem responseFromExternalError_response (E : Steps) (errors : JSValue)
    (requestAccepts : option string) :
  (Loggable errors ->
   exists response,
     responseFromExternalError E errors requestAccepts = Returned response
     /\ HTTPResponse.status response
        = head (map (fun v => APIError.status (fromError E v))
                  (API.toErrorArray errors))
     /\ HTTPResponse.headers response !! "vary" = Some "Accept"
     /\ dom (HTTPResponse.headers response) = {[ "content-type"; "vary" ]}
     /\ (forall mediaType,
           negotiateContentType E requestAccepts
             ["application/vnd.api+json"]
           = Returned mediaType ->
           mediaType <> "" ->
           HTTPResponse.headers response !! "content-type"
           = Some mediaType)
     /\ (forall err,
           negotiateContentType E requestAccepts
             ["application/vnd.api+json"]
           = Threw err ->
           HTTPResponse.headers response !! "content-type"
           = Some "application/vnd.api+json"))
  /\ (Exists (fun v => isNullish v = true) (API.toErrorArray errors) ->
      responseFromExternalError E errors requestAccepts
      = Threw (JSErrorObj TypeError)).
Proof.
  unfold responseFromExternalError, API.callMakeResultFromErrors.
  cbv zeta. split.
  - intros Hloggable. rewrite (coercible_loggable _ Hloggable).
    eexists. split; [reflexivity |].
    destruct (errors_to_response (toString E) (fromError E) None None errors
                (Some match negotiateContentType E requestAccepts
                             ["application/vnd.api+json"] with
                      | Returned negotiated => negotiated
                      | Threw _ => "application/vnd.api+json"
                      end)) as (Hstatus & Hheaders & _).
    rewrite Hstatus, Hheaders. unfold defaultHeaders.
    split; [now rewrite map_map |].
    split; [reflexivity |].
    split; [now rewrite dom_insert_L, dom_singleton_L |].
    split.
    + intros mediaType -> Hne. rewrite lookup_insert_eq. cbn [mediaTypeOr].
      now rewrite (truthyString_true _ Hne).
    + intros err ->. reflexivity.
  - intros Hnullish. now rewrite (coercible_nullish _ Hnullish).
Qed.

Lemma responseFromExternalError_response_witness :
  let E := Examples.steps (Returned IdNull) Examples.identityHook None in
  let conflict := JSErrorObj Examples.duplicateKey in
  (exists response,
      responseFromExternalError E conflict (Some "text/html")
      = Returned response
      /\ HTTPResponse.status response = Some 500
      /\ HTTPResponse.headers response !! "content-type"
         = Some "application/vnd.api+json")
  /\ responseFromExternalError E JSUndefined (Some "text/html")
     = Threw (JSErrorObj TypeError).
Proof.
  intros E conflict. split.
  - destruct (proj1 (responseFromExternalError_response E conflict
                       (Some "text/html")))
      as (response & Hresponse & Hstatus & _ & _ & Hnegotiated & _).
    + repeat constructor.
    + exists response. split; [exact Hresponse |].
      split; [exact Hstatus |].
      apply (Hnegotiated "application/vnd.api+json");
        [reflexivity | discriminate].
  - apply (proj2 (responseFromExternalError_response E JSUndefined
                    (Some "text/html"))).
    constructor. reflexivity.
Defined.

(** ** The stages of the pipeline *)

(** Runs a computation on its state, splitting on the outcome of every
    stage. *)
Ltac run_stages :=
  unfold bind, await, modify, ret, throw, tryCatch;
  cbv beta iota zeta;
  repeat
    (match goal with
     | |- context [match ?x with _ => _ end] =>
         lazymatch type of x with
         | (_ * _)%type => fail
         | _ => destruct x eqn:?
         end
     end;
     cbv beta iota zeta).

Section Pipeline.

Import API.

Variable E : Steps.
Variable this : APIController.
Variable request : Request.
Variables frameworkReq frameworkRes : FrameworkObject.
Variable queryTransform : option (Query -> Outcome Query).

Local Abbreviation run_handle :=
  (handle E this request frameworkReq frameworkRes queryTransform).
Local Abbreviation run_settle :=
  (settle E this request frameworkReq frameworkRes queryTransform).
Local Abbreviation run_tryBlock :=
  (tryBlock E this request frameworkReq frameworkRes queryTransform).
Local Abbreviation run_prepare :=
  (prepare E this request frameworkReq frameworkRes queryTransform).
Local Abbreviation makeDoc := (makeDocFor (registry this) request).

Lemma logErrors_run (errorsArr : list JSValue) (s : PipelineState) :
  Forall (fun v => isNullish v = false) errorsArr ->
  logErrors errorsArr s
  = (mkPipelineState (contentType s) (events s ++ map Logged errorsArr),
     Returned tt).
Proof.
  intros Hall. revert s.
  induction Hall as [| err rest Herr _ IH]; intros s; simpl.
  - rewrite app_nil_r. now destruct s.
  - rewrite Herr. unfold bind, logEvent, modify. rewrite IH. simpl.
    now rewrite <- app_assoc.
Qed.

(** A failure of the [try] block that can be logged is logged, error by
    error, and answered with the response made from it. *)
Lemma handle_catches (s : PipelineState) (err : JSValue) :
  run_tryBlock initialState = (s, Threw err) ->
  Loggable err ->
  run_handle
  = (mkPipelineState (contentType s)
       (events s ++ map Logged (toErrorArray err)),
     Returned (resultToHTTPResponse (toString E)
                 (makeResultFromErrors (fromError E) makeDoc err)
                 (contentType s))).
Proof.
  intros Htry Hloggable. unfold handle, settle, tryCatch, bind.
  rewrite Htry. unfold catchBlock, bind, await, callMakeResultFromErrors.
  rewrite (coercible_loggable _ Hloggable).
  now rewrite (logErrors_run _ s Hloggable).
Qed.

Lemma prepare_early_failure (err : JSValue) :
  earlyFailure E request = Some err ->
  run_prepare initialState = (initialState, Threw err).
Proof.
  unfold prepare, earlyFailure. cbv zeta.
  rewrite bind_await. destruct (checkMethod E request); [| congruence].
  rewrite bind_await. destruct (checkBodyExistence E request); [| congruence].
  rewrite bind_await.
  destruct (negotiateContentType E _ _); [discriminate | congruence].
Qed.

(** When the method check, the body-existence check or the content
    negotiation fails with a value that can be logged, [handle] responds
    with the status of the first error of that value, under the JSON:API
    media type, whatever the request accepts; the only calls it makes are
    the logging of the errors. *)
Theorem early_failure_response (err : JSValue) :
  earlyFailure E request = Some err ->
  Loggable err ->
  exists s response,
    run_handle = (s, Returned response)
    /\ events s = map Logged (toErrorArray err)
    /\ HTTPResponse.status response
       = head (map (fun v => APIError.status (fromError E v))
                 (toErrorArray err))
    /\ HTTPResponse.headers response
       = defaultHeaders "application/vnd.api+json".
Proof.
  intros Hearly Hloggable.
  assert (Htry : run_tryBlock initialState = (initialState, Threw err)).
  { unfold tryBlock, bind. now rewrite (prepare_early_failure err Hearly). }
  rewrite (handle_catches _ _ Htry Hloggable).
  eexists _, _. split; [reflexivity |]. split; [reflexivity |].
  destruct (errors_to_response (toString E) (fromError E)
              (Some (Request.uri request))
              (Some (Registry.urlTemplates (registry this))) err None)
    as (Hstatus & Hheaders & _).
  split.
  - etransitivity; [exact Hstatus | now rewrite map_map].
  - exact Hheaders.
Qed.


(** *** The calls and their order *)


Lemma dispatch_calls (p : Prepared) (s : PipelineState) :
  events (fst (dispatch E makeDoc p s))
  = (events s
     ++ if supportsLabelMapping p && mappedToNothing (mappedLabel p)
        then []
        else [CalledDoQuery (query p)])%list.
Proof.
  unfold dispatch, logEvent. cbv zeta.
  destruct (supportsLabelMapping p && mappedToNothing (mappedLabel p)).
  - simpl. now rewrite app_nil_r.
  - run_stages; reflexivity.
Qed.

Lemma render_calls (extras : Extras) (jsonAPIResult : Result)
    (s : PipelineState) :
  events (fst (render E extras jsonAPIResult s)) = events s.
Proof. unfold render. run_stages; reflexivity. Qed.

Lemma logErrors_calls (errorsArr : list JSValue) (s : PipelineState) :
  exists logged : list Event,
    events (fst (logErrors errorsArr s)) = (events s ++ logged)%list
    /\ forallb isLogged logged = true.
Proof.
  revert s. induction errorsArr as [| err rest IH]; intros s; simpl.
  - exists []. now rewrite app_nil_r.
  - destruct (isNullish err).
    + exists []. now rewrite app_nil_r.
    + unfold bind, logEvent, modify.
      destruct (IH (mkPipelineState (contentType s)
                      (events s ++ [Logged err]))) as (logged & Hev & Hall).
      exists (Logged err :: logged). split; [| exact Hall].
      rewrite Hev. simpl. now rewrite <- app_assoc.
Qed.


Lemma handle_calls :
  exists logged : list Event,
    events (fst run_handle)
    = (events (fst (run_tryBlock initialState)) ++ logged)%list
    /\ forallb isLogged logged = true.
Proof.
  rewrite handle_state. unfold settle, tryCatch.
  destruct (run_tryBlock initialState) as [s [result | err]].
  - exists []. now rewrite app_nil_r.
  - unfold catchBlock, bind, await, callMakeResultFromErrors.
    destruct (coercible err); [| exists []; now rewrite app_nil_r].
    destruct (logErrors_calls (toErrorArray err) s) as (logged & Hev & Hall).
    exists logged. split; [| exact Hall].
    now destruct (logErrors (toErrorArray err) s) as [s' [u | e]].
Qed.


Lemma prepare_built (s : PipelineState) :
  Exists (fun e => isBuiltQuery e = true) (events (fst (run_prepare s))) ->
  Exists (fun e => isBuiltQuery e = true) (events s)
  \/ checksPassed E this request frameworkReq.
Proof.
  unfold prepare, logEvent, checksPassed. run_stages.
  all: cbn [fst snd events Request.type Request.setIdOrIds
            Request.queryParams Request.rawQueryString] in *.
  all: rewrite <- ?app_assoc.
  all: intros Hbuilt.
  all: try solve [left; exact Hbuilt].
  all: try solve
         [left; apply Exists_app in Hbuilt;
          destruct Hbuilt as [Hbuilt | Hbuilt]; [exact Hbuilt |];
          inversion Hbuilt as [? ? Hhead | ? ? Htail];
          [discriminate Hhead | inversion Htail]].
  all: right.
  all: repeat match goal with u : unit |- _ => destruct u end.
  all: repeat split; eauto; try discriminate.
Qed.


Lemma not_built_logged (logged : list Event) :
  forallb isLogged logged = true ->
  ~ Exists (fun e => isBuiltQuery e = true) logged.
Proof.
  induction logged as [| e rest IH]; simpl; intros Hall Hsome.
  - inversion Hsome.
  - apply andb_true_iff in Hall. destruct Hall as [He Hrest].
    inversion Hsome as [? ? Hhead | ? ? Htail]; subst.
    + now destruct e.
    + now apply IH.
Qed.

(** [handle] builds a query only when the method check, the
    body-existence check, the content negotiation, the adapter lookup, the
    label mapper (where the request holds a label) and both parsers of the
    query parameters have all passed: when one of them fails, no query is
    built. *)
Theorem query_built_after_checks :
  Exists (fun e => isBuiltQuery e = true) (events (fst run_handle)) ->
  checksPassed E this request frameworkReq.
Proof.
  intros Hbuilt.
  destruct handle_calls as (logged & Hev & Hall).
  rewrite Hev in Hbuilt. apply Exists_app in Hbuilt.
  destruct Hbuilt as [Hbuilt | Hbuilt];
    [| now destruct (not_built_logged logged Hall)].
  assert (Hprepared :
    Exists (fun e => isBuiltQuery e = true)
      (events (fst (run_prepare initialState)))).
  { revert Hbuilt. unfold tryBlock, bind.
    destruct (run_prepare initialState) as [s1 [p | e]];
      [| now intros H].
    pose proof (dispatch_calls p s1) as Hdispatch.
    destruct (dispatch E makeDoc p s1) as [s2 [result | e]];
      simpl in Hdispatch.
    - pose proof (render_calls
                    (extrasFor (registry this) frameworkReq frameworkRes
                       (API.request p)) result s2) as Hrender.
      destruct (render E _ result s2) as [s3 [rendered | e]];
        simpl in Hrender; simpl; rewrite Hrender, Hdispatch.
      all: intros H; apply Exists_app in H; destruct H as [H | H];
        [exact H |];
        destruct (supportsLabelMapping p && mappedToNothing (mappedLabel p));
        inversion H as [? ? Hhead | ? ? Htail];
        [discriminate Hhead | inversion Htail].
    - simpl. rewrite Hdispatch.
      intros H; apply Exists_app in H; destruct H as [H | H];
        [exact H |];
        destruct (supportsLabelMapping p && mappedToNothing (mappedLabel p));
        inversion H as [? ? Hhead | ? ? Htail];
        [discriminate Hhead | inversion Htail]. }
  destruct (prepare_built initialState Hprepared) as [Hnone | Hpassed];
    [inversion Hnone | exact Hpassed].
Qed.

(** *** A rejection of the adapter *)

(** When the adapter's [doQuery] rejects and the query has no [catch] of
    its own, the rejection value is converted where it is received.  For
    a value that holds no [null] or [undefined], [handle] responds with
    the status of its first error and the Document of its errors, and the
    rejection is not logged (the [beforeRender] transform being taken to
    leave absent data absent).  For [null], [undefined] or an array that
    holds one of them, that conversion throws a [TypeError], which the
    [catch] block logs and answers in its place. *)
Theorem adapter_rejection_response (s1 : PipelineState) (p : Prepared)
    (q : Query) (err : JSValue) :
  run_prepare initialState = (s1, Returned p) ->
  supportsLabelMapping p && mappedToNothing (mappedLabel p) = false ->
  query p = Some q ->
  Query.catch q = None ->
  Adapter.doQuery (adapter p) (Some q) = Returned (Threw err) ->
  (Loggable err ->
   applyTransform E None beforeRender
     (extrasFor (registry this) frameworkReq frameworkRes (API.request p))
   = Returned None ->
   exists s response,
     run_handle = (s, Returned response)
     /\ events s = (events s1 ++ [CalledDoQuery (Some q)])%list
     /\ HTTPResponse.status response
        = head (map (fun v => APIError.status (fromError E v))
                  (toErrorArray err))
     /\ HTTPResponse.body response
        = Some (toString E
            (makeDoc {| DocumentData.primary := None;
                        DocumentData.included := None;
                        DocumentData.errors :=
                          Some (map (fromError E) (toErrorArray err)) |})))
  /\ (Exists (fun v => isNullish v = true) (toErrorArray err) ->
      exists s response,
        run_handle = (s, Returned response)
        /\ events s
           = (events s1
              ++ [CalledDoQuery (Some q); Logged (JSErrorObj TypeError)])%list
        /\ HTTPResponse.status response
           = Some (APIError.status (fromError E (JSErrorObj TypeError)))
        /\ HTTPResponse.body response
           = Some (toString E
               (makeDoc {| DocumentData.primary := None;
                           DocumentData.included := None;
                           DocumentData.errors :=
                             Some [fromError E (JSErrorObj TypeError)] |}))).
Proof.
  intros Hprepare Hnothing Hquery Hcatch Hreject.
  assert (Hdispatch :
    dispatch E makeDoc p s1
    = (mkPipelineState (contentType s1)
         (events s1 ++ [CalledDoQuery (Some q)]),
       callMakeResultFromErrors (fromError E) makeDoc err)).
  { unfold dispatch. cbv zeta.
    rewrite Hnothing, Hquery. unfold logEvent, bind, modify, await.
    now rewrite Hreject, Hcatch. }
  split.
  - intros Hloggable Htransform.
    destruct (errors_to_response (toString E) (fromError E)
                (Some (Request.uri request))
                (Some (Registry.urlTemplates (registry this))) err
                (contentType s1))
      as (Hstatus & _ & Hbody).
    unfold handle, settle, tryCatch, tryBlock, bind.
    rewrite Hprepare, Hdispatch.
    unfold callMakeResultFromErrors.
    rewrite (coercible_loggable _ Hloggable).
    unfold render, makeResultFromErrors. cbv zeta.
    cbn [Result.document makeDocFor newDocument Document.primary
         Document.included DocumentData.primary DocumentData.included].
    unfold bind, await. rewrite Htransform. unfold ret.
    eexists _, _. split; [reflexivity |].
    split; [reflexivity |].
    rewrite map_map in Hstatus.
    split; [exact Hstatus | exact Hbody].
  - intros Hnullish.
    destruct (errors_to_response (toString E) (fromError E)
                (Some (Request.uri request))
                (Some (Registry.urlTemplates (registry this)))
                (JSErrorObj TypeError) (contentType s1))
      as (Hstatus & _ & Hbody).
    unfold handle, settle, tryCatch, tryBlock, bind.
    rewrite Hprepare, Hdispatch.
    unfold callMakeResultFromErrors at 1.
    rewrite (coercible_nullish _ Hnullish).
    unfold catchBlock, bind, await, callMakeResultFromErrors.
    cbn [coercible toErrorArray forallb isNullish negb andb logErrors].
    unfold bind, logEvent, modify, ret.
    eexists _, _. split; [reflexivity |].
    split; [cbn [events]; now rewrite <- app_assoc |].
    split; [exact Hstatus | exact Hbody].
Qed.

(** *** Requests without a body *)

Lemma prepare_without_body
    (validateContentType' : Request -> list string -> Outcome unit)
    (validateRequestDocument' : option JSON -> Outcome unit)
    (parseRequestPrimary' : option JSON -> bool -> Outcome (option Primary))
    (validateRequestResources' :
       string -> option Primary -> Registry -> Outcome unit)
    (s : PipelineState) :
  Request.hasBody request = false ->
  prepare
    (withBodySteps E validateContentType' validateRequestDocument'
       parseRequestPrimary' validateRequestResources')
    this request frameworkReq frameworkRes queryTransform s
  = run_prepare s.
Proof.
  intros Hnobody. unfold prepare. cbv zeta.
  destruct (truthyIds (Request.idOrIds request)
            && Request.allowLabel request);
    cbn [Request.hasBody Request.setQueryParams Request.setIdOrIds];
    rewrite Hnobody; reflexivity.
Qed.

(** For a request without a body, [handle] never consults the validators
    of the content type, of the request document and of its resources, nor
    the parser of the primary data: whatever they are, its calls and its
    response are the same. *)
Theorem bodyless_request_skips_body_steps
    (validateContentType' : Request -> list string -> Outcome unit)
    (validateRequestDocument' : option JSON -> Outcome unit)
    (parseRequestPrimary' : option JSON -> bool -> Outcome (option Primary))
    (validateRequestResources' :
       string -> option Primary -> Registry -> Outcome unit) :
  Request.hasBody request = false ->
  handle
    (withBodySteps E validateContentType' validateRequestDocument'
       parseRequestPrimary' validateRequestResources')
    this request frameworkReq frameworkRes queryTransform
  = run_handle.
Proof.
  intros Hnobody. unfold handle, settle, tryCatch, tryBlock, bind.
  rewrite (prepare_without_body _ _ _ _ _ Hnobody). reflexivity.
Qed.

(** *** The request that the queries are built from *)

(** When the stages before the dispatch complete, the request they hand on
    has the method, the type, the URI and the body of the request given to
    [handle]; its identifiers are those the label resolved to, where the
    request held a label, and those given otherwise; its query parameters
    are the two parse results; and the adapter is the one registered for
    the type. *)
Theorem prepared_request (s s' : PipelineState) (p : Prepared) :
  run_prepare s = (s', Returned p) ->
  Request.method (API.request p) = Request.method request
  /\ Request.type (API.request p) = Request.type request
  /\ Request.uri (API.request p) = Request.uri request
  /\ Request.body (API.request p) = Request.body request
  /\ (if truthyIds (Request.idOrIds request) && Request.allowLabel request
      then labelToIds E (Request.type request) (Request.idOrIds request)
             (registry this) frameworkReq
           = Returned (Request.idOrIds (API.request p))
      else Request.idOrIds (API.request p) = Request.idOrIds request)
  /\ Registry.dbAdapter (registry this) (Request.type request)
     = Some (adapter p)
  /\ exists parsed filter,
       Request.queryParams (API.request p) = ParsedParams parsed filter
       /\ parseQueryParams E (Request.queryParams request) = Returned parsed
       /\ filterParamParser this
            (Adapter.unaryFilterOperators (adapter p))
            (Adapter.binaryFilterOperators (adapter p))
            (Request.rawQueryString request) (Request.queryParams request)
          = Returned filter.
Proof.
  unfold prepare, logEvent. cbv zeta. intros H.
  comp_inv.
  all: cbn in *.
  all: repeat split; try congruence; eauto.
Qed.

End Pipeline.

Lemma early_failure_response_witness :
  exists s response,
    API.handle Samples.refusing (Examples.controller Examples.noFilter)
      (Examples.get "people" (IdOne "1") false) JNull JNull None
    = (s, Returned response)
    /\ HTTPResponse.status response = Some 405
    /\ API.events s
       = [API.Logged
            (JSAPIError (newAPIError 405 None "Method not supported."))].
Proof.
  destruct (early_failure_response Samples.refusing
              (Examples.controller Examples.noFilter)
              (Examples.get "people" (IdOne "1") false) JNull JNull None
              (JSAPIError (newAPIError 405 None "Method not supported."))
              eq_refl)
    as (s & response & Hhandle & Hevents & Hstatus & _).
  - repeat constructor.
  - exists s, response. split; [exact Hhandle |].
    split; [exact Hstatus | exact Hevents].
Defined.

Lemma query_built_after_checks_witness :
  checksPassed (Examples.steps (Returned IdNull) Examples.identityHook None)
    (Examples.controller Examples.noFilter)
    (Examples.get "people" (IdOne "1") false) JNull.
Proof.
  apply (query_built_after_checks
           (Examples.steps (Returned IdNull) Examples.identityHook None)
           (Examples.controller Examples.noFilter)
           (Examples.get "people" (IdOne "1") false) JNull JNull None).
  vm_compute. apply Exists_cons_tl, Exists_cons_hd. reflexivity.
Defined.

Lemma adapter_rejection_response_witness :
  let E := Examples.steps (Returned IdNull) Examples.identityHook None in
  let request := Examples.get "people" (IdOne "1") false in
  (exists s response,
      API.handle E Samples.conflicting request JNull JNull None
      = (s, Returned response)
      /\ HTTPResponse.status response = Some 409
      /\ existsb isLogged (API.events s) = false)
  /\ (exists s response,
        API.handle E Samples.unreliable request JNull JNull None
        = (s, Returned response)
        /\ HTTPResponse.status response = Some 500
        /\ existsb isLogged (API.events s) = true).
Proof.
  intros E request. split.
  - destruct (proj1 (adapter_rejection_response E Samples.conflicting
                       request JNull JNull None _ _ _
                       (JSArray [JSAPIError Samples.conflict])
                       eq_refl eq_refl eq_refl eq_refl eq_refl))
      as (s & response & Hhandle & Hevents & Hstatus & _).
    + repeat constructor.
    + reflexivity.
    + exists s, response. split; [exact Hhandle |].
      split; [exact Hstatus |].
      rewrite Hevents. reflexivity.
  - destruct (proj2 (adapter_rejection_response E Samples.unreliable
                       request JNull JNull None _ _ _ JSUndefined
                       eq_refl eq_refl eq_refl eq_refl eq_refl))
      as (s & response & Hhandle & Hevents & Hstatus & _).
    + constructor. reflexivity.
    + exists s, response. split; [exact Hhandle |].
      split; [exact Hstatus |].
      rewrite Hevents. reflexivity.
Defined.

Lemma bodyless_request_skips_body_steps_witness :
  let E := Examples.steps (Returned IdNull) Examples.identityHook None in
  let this := Examples.controller Examples.noFilter in
  API.handle
    (withBodySteps E (fun _ _ => Threw JSUndefined)
       (fun _ => Threw JSUndefined) (fun _ _ => Threw JSUndefined)
       (fun _ _ _ => Threw JSUndefined))
    this Samples.bodyless JNull JNull None
  = API.handle E this Samples.bodyless JNull JNull None.
Proof.
  intros E this.
  apply (bodyless_request_skips_body_steps E this Samples.bodyless
           JNull JNull None).
  reflexivity.
Defined.

Lemma prepared_request_witness :
  let E :=
    Examples.steps (Returned (IdMany ["1"; "2"])) Examples.identityHook
      None in
  let this := Examples.controller Examples.noFilter in
  let request := Examples.get "people" (IdOne "friends") true in
  exists s' p,
    API.prepare E this request JNull JNull None API.initialState
    = (s', Returned p)
    /\ Request.idOrIds (API.request p) = IdMany ["1"; "2"]
    /\ Request.method (API.request p) = "get".
Proof.
  intros E this request.
  assert (Hprepare :
    exists s' p,
      API.prepare E this request JNull JNull None API.initialState
      = (s', Returned p)).
  { eexists _, _. vm_compute. reflexivity. }
  destruct Hprepare as (s' & p & Hprepare).
  exists s', p. split; [exact Hprepare |].
  pose proof (prepared_request E this request JNull JNull None
                API.initialState s' p Hprepare) as H.
  split.
  - pose proof (proj1 (proj2 (proj2 (proj2 (proj2 H))))) as Hids.
    simpl in Hids. now injection Hids as <-.
  - exact (proj1 H).
Defined.
